(* ===== verification/_CoqProject ===== *)
-Q . S2P
Prelude.v
GlueApi.v
Json.v
Handler.v
Invocations.v
Stack.v
Pipeline.v
Template.v
PyImport.v
Construction.v
Runtime.v
