(* ===== verification/Prelude.v ===== *)
(** * A verification development of the aws-dp-1 data-ingestion pipeline

    The repository declares a cloud data-ingestion pipeline with the AWS CDK
    (src/lambda/commenstack.py, instantiated by src/app.py and tested by
    src/tests/unit/test_firstcdk_stack.py) and ships one procedural
    component, the crawler-trigger Lambda handler
    (src/lambda/lambda_handler.py).  This development models all of them.

    ** The program and how its parts interact

    - The handler [lambda_handler] is invoked by the platform on an
      object-created event.  It prints a line, asks the Glue service for the
      crawler ["test-lambda-crawler"] ([glue.get_crawler]), starts it
      ([glue.start_crawler]) unless its state is ["RUNNING"], swallows
      exactly one exception ([EntityNotFoundException]) and returns
      [{statusCode: 200, body: json.dumps('Hello from Lambda!')}].
      Every other exception of the two Glue calls propagates to the platform.
    - The Glue service is the one collaborator of the handler: a store of
      crawlers, each in state READY, RUNNING or STOPPING.  It is not code of
      the repository; the development states what the handler needs from it
      as an interface and gives one implementation of it.
    - The platform may run several invocations at once; each performs its
      own check-then-act sequence against the shared crawler, while the
      crawler's own run moves it RUNNING -> STOPPING -> READY.
    - The CDK stack [FirstcdkStack] is built by a constructor that creates
      fifteen constructs in the stack's scope: two buckets, a script
      deployment, an SQS queue fed by a bucket notification, two IAM roles,
      a Glue database, a LakeFormation grant, a crawler, a job, a workflow
      with two triggers and an EventBridge rule.  Resources refer to one
      another by name, by ARN and by CDK tokens.  app.py imports the stack
      class, builds the app and synthesizes the template; the unit tests
      import the same class and assert on the template.

    ** Files, in dependency order

    - [Prelude] (this file): the state-and-exception monad [exec] in which
      Python code that threads state and raises is written, its notation
      scope [exec_scope], the combinator [exec_raises_only] (the exceptions
      a computation may raise) with its bind lemma, the generic lemmas on
      strings (character classes, [str_forallb], substrings, prefixes) and
      lists ([count_if], [sum_by]), the hint database [pipeline], and the
      tactic [str_neq].
    - [GlueApi]: the Glue client interface as a type class [GlueClient]
      (get_crawler, start_crawler), the laws [GlueClientLaws] the handler's
      contract relies on, and the reference service [GlueSvc] (a gmap from
      crawler names to states, with an injected fault) that satisfies them.
    - [Json]: Python's [json.dumps] on a string ([encode_basestring_ascii])
      over Latin-1 characters, used for the response body.
    - [Handler]: the world the handler runs in (Glue service, stdout, the
      API calls issued), the handler [lambda_handler] written line by line
      in the [exec] monad, and its behaviour on every branch.
    - [Invocations]: concurrent invocations as a small-step system: each
      invocation performs the query ([handler_query]) and then the act step
      ([handler_act]), proved to compose to [lambda_handler]
      ([lambda_handler_as_steps]); [step] adds the crawler's own progress.
      Invariants are proved by rule induction over stdpp's [rtc].
    - [Stack]: the resources of [FirstcdkStack], one definition per
      construct of commenstack.py, with the props the code passes.
    - [Pipeline]: what the resources mean together: resolution of CDK
      tokens, referential integrity, a run of the Glue workflow, the objects
      the script deployment uploads, event routing, IAM wildcards, S3's
      bucket-naming rules, bucket deletion, and the handler run against the
      provisioned service.
    - [Template]: the synthesized template ([synth], [app_synth]) and the
      unit tests' assertions on it.
    - [PyImport]: Python's [import m] and [from m import x] over a module
      table ([Modules]), in the [exec] monad ([run_imports]); the type class
      [ImportErrors] says how each program's error type carries the two
      import errors.
    - [Construction]: the constructor [FirstcdkStack_init] as construct
      creations on the stack's node (with the constructs library's id
      checks), the call [FirstcdkStack_new], app.py ([app_py]) and the test
      module as programs with Python's import semantics over a module table,
      the stack module's own imports (lines 54-63) included.
    - [Runtime]: the Lambda runtime around the handler: the init phase
      (lambda_handler.py's imports, lines 4-5), then the events handled one
      after the other in one environment ([invoke], [invoke_all],
      [lambda_service]), the service and the log carried over; the
      handler's frame lemma ([lambda_handler_frame]: it only appends to the
      log and the call list) reduces a run of events to one invocation.

    ** What the theorems show (grouped)

    - Handler, against the interface: the four branches of the spec
      (crawler not running: one start; running: none; not found: swallowed;
      any other error: propagated), the fixed 200 response on every
      returning path, the API calls it sends (a query, then at most one
      start), and the contract "afterwards the crawler is running" from the
      interface's laws.
    - Handler, against the reference service: a STOPPING crawler makes the
      handler raise [CrawlerRunningException].
    - Invocations: no start command while the crawler runs, whatever the
      interleaving; at most one successful start from a READY crawler; two
      invocations can interleave so that one of them fails; counting the
      crawler's steps ([runs k]), the successful starts are bounded by the
      crawler's completed runs (a potential argument).
    - Runtime: events handled one after the other on a READY crawler start
      it exactly once and all succeed; over the reference service in any
      state, after the first event the service no longer changes and every
      later event repeats the same invocation (the handler is idempotent on
      the service).
    - Stack, Pipeline and Template: the one dangling reference of the stack
      (the job trigger waits on crawler ["glue_crawler"], which does not
      exist), so a workflow run never starts the job; the job's script
      location is not an object the deployment uploads; routing of
      object-created events; the handler's crawler is not provisioned by the
      stack; the actions and resources the roles allow; the bucket names are
      valid S3 names for every account but the same in every region; the
      unit tests' expectations do not hold on the synthesized template;
      deleting the stack fails while the raw bucket holds an object, since
      its [auto_delete_objects] is commented out.
    - Construction: the operational constructor builds exactly
      [FirstcdkStack]; app.py raises ModuleNotFoundError for [firstcdk] with
      the repository's modules and otherwise synthesizes the template; the
      unit tests cannot pass with any module table.

    ** Bounds and fuel

    Only the round-robin scheduler [run_schedule] of [Invocations] takes
    fuel, and only to reach concrete states in witnesses; each step it
    takes lowers the number of pending steps by one.  The start bound is
    stated per number of crawler steps [k]: at most [1 + k/2] successful
    starts.  No machine integers occur in the code; status codes and
    timeouts are [Z]; the bucket-name bounds (3..63 characters) are proved
    for every twelve-digit account id.

    ** Not modelled

    The CDK synthesizer and CloudFormation are modelled only as far as the
    resource types and properties the tests inspect, and the constructs
    library only as far as the id and stack-name checks; the singleton
    helper constructs CDK adds (custom-resource providers) are left out.
    The IAM and LakeFormation authorisation engines, the crawler's and the
    job's own work, SQS delivery and retries, and the Lambda runtime's
    retries, timeouts, concurrency scaling and environment recycling are
    provider behaviour and are not modelled ([Runtime] keeps one
    environment, events in order; [Invocations] covers the interleaving).
    Stack deletion is modelled only for the buckets, and the raw bucket's
    lifecycle rule (to GLACIER after 7 days) is kept as data without a
    storage semantics.  The commented-out code of commenstack.py (lines
    1-51, 87-100, 167-180) and lambda_handler.py (lines 1-2) is not code;
    every other line of src/ is modelled by a definition of the
    development. *)

From stdpp Require Export base strings list gmap.

(** ** The state-and-exception monad

    [exec S E A] is a computation on a state [S] that returns an [A] or
    raises an exception [E].  Unlike a state transformer over a sum, the
    state reached when an exception is raised is kept: in Python, the side
    effects performed before a [raise] are not undone. *)

Inductive outcome (E A : Type) : Type :=
  | Returned (a : A)
  | Raised (e : E).
Arguments Returned {E A} a.
Arguments Raised {E A} e.

Definition exec (S E A : Type) : Type := S -> S * outcome E A.

#[export] Instance exec_ret {S E} : MRet (exec S E) :=
  fun A a s => (s, Returned a).

#[export] Instance exec_bind {S E} : MBind (exec S E) :=
  fun A B f c s =>
    match c s with
    | (s', Returned a) => f a s'
    | (s', Raised e) => (s', Raised e)
    end.

Definition raise {S E A} (e : E) : exec S E A := fun s => (s, Raised e).

Definition modify {S E} (f : S -> S) : exec S E unit := fun s => (f s, Returned tt).

(** [try: body except h: handler]: the handler runs when [handles] accepts
    the exception; any other exception propagates unchanged. *)
Definition try_except {S E A} (body : exec S E A) (handles : E -> bool)
    (handler : E -> exec S E A) : exec S E A :=
  fun s =>
    match body s with
    | (s', Raised e) => if handles e then handler e s' else (s', Raised e)
    | r => r
    end.

(** The outcome of [c] as a value: the exception, if any, is caught into
    [inl]. *)
Definition attempt {S E A} (c : exec S E A) : exec S E (E + A) :=
  fun s =>
    match c s with
    | (s', Returned a) => (s', Returned (inr a))
    | (s', Raised e) => (s', Returned (inl e))
    end.

(** Re-raise a caught exception, or continue with the value. *)
Definition of_sum {S E A} (r : E + A) : exec S E A :=
  match r with
  | inl e => raise e
  | inr a => fun s => (s, Returned a)
  end.

Declare Scope exec_scope.
Delimit Scope exec_scope with exec.
Notation "'try:' c 'except' p '=>' h" := (try_except c p (fun _ => h))
  (at level 10, c at level 100, p at level 9, h at level 200) : exec_scope.

(** ** Lemmas on the monad *)

Section ExecLemmas.
Context {S E : Type}.

Lemma exec_bind_returned {A B} (c : exec S E A) (f : A -> exec S E B) s s' a :
  c s = (s', Returned a) -> (x ← c; f x) s = f a s'.
Proof. intros Hc. unfold mbind, exec_bind. by rewrite Hc. Qed.

Lemma exec_bind_raised {A B} (c : exec S E A) (f : A -> exec S E B) s s' e :
  c s = (s', Raised e) -> (x ← c; f x) s = (s', Raised e).
Proof. intros Hc. unfold mbind, exec_bind. by rewrite Hc. Qed.

(** Splitting a computation at its first call: catching that call's
    exception into a value and re-raising it inside the [try] block is
    the same as running the block. *)
Lemma try_except_attempt {A B C} (c : exec S E A) (k : A -> exec S E B) p h
    (f : B -> exec S E C) s :
  (y ← try_except (x ← c; k x) p h; f y) s =
  (r ← attempt c; y ← try_except (x ← of_sum r; k x) p h; f y) s.
Proof.
  unfold mbind, exec_bind, attempt, try_except. by destruct (c s) as [s' [a|e]].
Qed.

(** Binding a computation that always returns: the whole runs as the
    continuation on the updated state. *)
Lemma exec_bind_modify {B} (f : S -> S) (k : unit -> exec S E B) s :
  (x ← modify f; k x) s = k tt (f s).
Proof. reflexivity. Qed.

(** A computation raises only exceptions satisfying [Q]. *)
Definition exec_raises_only {A} (Q : E -> Prop) (c : exec S E A) : Prop :=
  forall s s' e, c s = (s', Raised e) -> Q e.

Lemma exec_raises_only_bind {A B} (Q : E -> Prop) (c : exec S E A) (k : A -> exec S E B) :
  exec_raises_only Q c -> (forall a, exec_raises_only Q (k a)) -> exec_raises_only Q (x ← c; k x).
Proof.
  intros Hc Hk s s'' e. unfold mbind, exec_bind.
  destruct (c s) as [s' [a|e']] eqn:Hcs; [apply Hk | intros [= _ <-]; exact (Hc _ _ _ Hcs)].
Qed.
End ExecLemmas.


(** ** Strings *)

Lemma string_eqb_neq (s t : string) : s <> t -> String.eqb s t = false.
Proof. intros H. destruct (String.eqb_spec s t); congruence. Qed.

Lemma string_app_cons (c : Ascii.ascii) (s t : string) :
  (String c s ++ t)%string = String c (s ++ t)%string.
Proof. reflexivity. Qed.

Lemma string_app_assoc (s t u : string) : ((s ++ t) ++ u = s ++ (t ++ u))%string.
Proof. induction s as [|c s IH]; [done|]. by rewrite !string_app_cons, IH. Qed.

Lemma string_app_nil_r (s : string) : (s ++ EmptyString)%string = s.
Proof. induction s as [|c s IH]; [done|]. by rewrite string_app_cons, IH. Qed.

Lemma string_app_inv_l (s t u : string) : (s ++ t = s ++ u)%string -> t = u.
Proof. induction s as [|c s IH]; [done|]. rewrite !string_app_cons. intros [= H]. auto. Qed.

(** Distinct literals: [str_neq] closes [s <> t] for two closed strings. *)
Ltac str_neq := let H := fresh in intros H; discriminate H.

(** Whether a name is in a list of names. *)
Definition name_in (s : string) (l : list string) : bool := existsb (String.eqb s) l.

(** Character classes of the naming rules (ASCII codes). *)
Definition is_upper (c : Ascii.ascii) : bool :=
  let n := Ascii.nat_of_ascii c in (65 <=? n) && (n <=? 90).
Definition is_lower (c : Ascii.ascii) : bool :=
  let n := Ascii.nat_of_ascii c in (97 <=? n) && (n <=? 122).
Definition is_digit (c : Ascii.ascii) : bool :=
  let n := Ascii.nat_of_ascii c in (48 <=? n) && (n <=? 57).

(** Every character of a string satisfies [p]. *)
Fixpoint str_forallb (p : Ascii.ascii -> bool) (s : string) : bool :=
  match s with
  | EmptyString => true
  | String c s' => p c && str_forallb p s'
  end.

(** The last character of a string. *)
Fixpoint str_last (s : string) : option Ascii.ascii :=
  match s with
  | EmptyString => None
  | String c EmptyString => Some c
  | String _ s' => str_last s'
  end.

Lemma str_forallb_app (p : Ascii.ascii -> bool) (s t : string) :
  str_forallb p (s ++ t) = str_forallb p s && str_forallb p t.
Proof. induction s as [|c s IH]; [done|]. rewrite string_app_cons. cbn. by rewrite IH, andb_assoc. Qed.

Lemma string_length_app (s t : string) :
  String.length (s ++ t) = String.length s + String.length t.
Proof. induction s as [|c s IH]; [done|]. rewrite string_app_cons. cbn. by rewrite IH. Qed.

Lemma str_last_app (s t : string) :
  t <> EmptyString -> str_last (s ++ t) = str_last t.
Proof.
  intros Ht. induction s as [|c s IH]; [done|]. rewrite string_app_cons. cbn.
  destruct (s ++ t)%string eqn:E.
  - destruct s; [destruct (Ht E) | rewrite string_app_cons in E; discriminate].
  - exact IH.
Qed.

Lemma str_forallb_impl (p q : Ascii.ascii -> bool) (s : string) :
  (forall c, p c = true -> q c = true) -> str_forallb p s = true -> str_forallb q s = true.
Proof.
  intros Hpq. induction s as [|c s IH]; [done|]. cbn [str_forallb].
  intros [Hc Hs]%andb_true_iff. by rewrite Hpq, IH.
Qed.

Lemma str_last_forallb (p : Ascii.ascii -> bool) (s : string) :
  s <> EmptyString -> str_forallb p s = true -> exists c, str_last s = Some c /\ p c = true.
Proof.
  induction s as [|c s IH]; [done|]. intros _. cbn [str_forallb]. intros [Hc Hs]%andb_true_iff.
  destruct s as [|c' s']; [by exists c|]. by apply IH.
Qed.

Lemma substring_app_r (s t : string) (i k : nat) :
  String.substring (String.length s + i) k (s ++ t) = String.substring i k t.
Proof. induction s as [|c s IH]; [done|]. rewrite string_app_cons. exact IH. Qed.

Lemma str_forallb_substring (p : Ascii.ascii -> bool) (s : string) (i k : nat) :
  str_forallb p s = true -> str_forallb p (String.substring i k s) = true.
Proof.
  revert i k. induction s as [|c s IH]; intros i k H; [by destruct i, k|].
  cbn [str_forallb] in H. apply andb_true_iff in H as [Hc Hs].
  destruct i as [|i]; [destruct k as [|k]|]; cbn; [done | by rewrite Hc, IH | by apply IH].
Qed.

Lemma prefix_app (r s t : string) :
  String.length r <= String.length s -> String.prefix r (s ++ t) = String.prefix r s.
Proof.
  revert s. induction r as [|a r IH]; intros s Hl; [by destruct s, t|].
  destruct s as [|b s]; cbn in Hl; [lia|]. rewrite string_app_cons. cbn.
  destruct (Ascii.ascii_dec a b); [apply IH; lia | done].
Qed.

(** ** Lists *)

(** The sum of a weight over the elements of a list. *)
Definition sum_by {A} (f : A -> nat) (l : list A) : nat := list_sum (map f l).

Lemma sum_by_cons {A} (f : A -> nat) (x : A) (l : list A) :
  sum_by f (x :: l) = f x + sum_by f l.
Proof. reflexivity. Qed.

Lemma sum_by_app {A} (f : A -> nat) (l1 l2 : list A) :
  sum_by f (l1 ++ l2) = sum_by f l1 + sum_by f l2.
Proof. unfold sum_by. by rewrite map_app, list_sum_app. Qed.

(** Replacing the element at [i]: the sum loses the old weight and gains
    the new one. *)
Lemma sum_by_insert {A} (f : A -> nat) (l : list A) i x y :
  l !! i = Some y -> sum_by f (<[i:=x]> l) + f y = sum_by f l + f x.
Proof.
  unfold sum_by. revert i. induction l as [|z l IH]; intros [|i]; try done.
  - intros [= ->]. cbn. lia.
  - intros Hi. specialize (IH i Hi).
    change (list_sum (map f (z :: <[i:=x]> l)) + f y = list_sum (map f (z :: l)) + f x).
    cbn in *. unfold list_sum in *. lia.
Qed.

(** The number of elements of a list that satisfy a boolean test. *)
Definition count_if {A} (p : A -> bool) (l : list A) : nat :=
  sum_by (fun x => if p x then 1 else 0) l.

Lemma count_if_app {A} (p : A -> bool) (l1 l2 : list A) :
  count_if p (l1 ++ l2) = count_if p l1 + count_if p l2.
Proof. apply sum_by_app. Qed.

Lemma count_if_one {A} (p : A -> bool) (x : A) :
  count_if p [x] = if p x then 1 else 0.
Proof. unfold count_if, sum_by. cbn. by destruct (p x). Qed.

Lemma count_if_replicate {A} (p : A -> bool) n (x : A) :
  count_if p (replicate n x) = if p x then n else 0.
Proof.
  induction n as [|n IH]; [by destruct (p x)|].
  change (replicate (S n) x) with ([x] ++ replicate n x).
  rewrite count_if_app, count_if_one, IH. by destruct (p x).
Qed.

Lemma count_if_insert {A} (p : A -> bool) (l : list A) i x y :
  l !! i = Some y ->
  count_if p (<[i:=x]> l) + (if p y then 1 else 0) = count_if p l + (if p x then 1 else 0).
Proof. apply sum_by_insert. Qed.

Lemma bool_decide_elem_of_app `{EqDecision A} (x : A) (l1 l2 : list A) :
  bool_decide (x ∈ l1 ++ l2) = bool_decide (x ∈ l1) || bool_decide (x ∈ l2).
Proof.
  apply Bool.eq_iff_eq_true. rewrite orb_true_iff, !bool_decide_eq_true. apply elem_of_app.
Qed.

Lemma existsb_Forall_ext {A} (f g : A -> bool) (l : list A) :
  Forall (fun x => f x = g x) l -> existsb f l = existsb g l.
Proof. induction 1 as [|x l Hx _ IH]; cbn; [done|]. by rewrite Hx, IH. Qed.

(** ** Reachability *)

(** An invariant of a relation holds along its reflexive-transitive
    closure (stdpp's [rtc]). *)
Lemma rtc_invariant {A} (R : relation A) (P : A -> Prop) :
  (forall x y, R x y -> P x -> P y) -> forall x y, rtc R x y -> P x -> P y.
Proof. intros Hstep x y Hxy. induction Hxy; eauto. Qed.

Create HintDb pipeline discriminated.
#[export] Hint Resolve string_eqb_neq : pipeline.
#[export] Hint Resolve exec_raises_only_bind : pipeline.
