(* ===== verification/GlueApi.v ===== *)
(** * The Glue client as the handler sees it

    The handler calls two operations of boto3's Glue client:
    [glue.get_crawler(Name=...)] and [glue.start_crawler(Name=...)].  This
    file states them as an interface, the type class [GlueClient], together
    with the laws [GlueClientLaws] on which the handler's contract rests, and
    gives a reference implementation [GlueSvc] of the service: a finite map
    from crawler names to crawler states, and an optional injected fault
    standing for every other failure of the service (throttling, access
    denied, ...).  The service is not code of the repository; what is
    modelled follows the Glue API: StartCrawler succeeds on a READY crawler
    and makes it RUNNING, fails with CrawlerRunningException on a crawler
    that is RUNNING or STOPPING, and with EntityNotFoundException on an
    unknown name.  A crawler's own run advances RUNNING -> STOPPING -> READY
    ([svc_crawler_progress]), which the handler does not cause. *)

From S2P Require Import Prelude.

(** ** Data of the API *)

Inductive CrawlerState := READY | RUNNING | STOPPING.

#[export] Instance CrawlerState_eq_dec : EqDecision CrawlerState.
Proof. solve_decision. Defined.

(** The API reports the state as a string. *)
Definition crawler_state_name (st : CrawlerState) : string :=
  match st with
  | READY => "READY"
  | RUNNING => "RUNNING"
  | STOPPING => "STOPPING"
  end.

(** [response['Crawler']]: the fields of the crawler description the code
    reads or that identify the crawler. *)
Record CrawlerDesc := { Name : string; State : string }.

(** The response of GetCrawler. *)
Record GetCrawlerResponse := { Crawler : CrawlerDesc }.

(** The exceptions of the two calls; [ClientError] is any other error code
    botocore raises. *)
Inductive GlueError :=
  | EntityNotFoundException
  | CrawlerRunningException
  | ClientError (code : string).

#[export] Instance GlueError_eq_dec : EqDecision GlueError.
Proof. solve_decision. Defined.

(** The class test of [except glue.exceptions.EntityNotFoundException]. *)
Definition is_entity_not_found (e : GlueError) : bool :=
  match e with EntityNotFoundException => true | _ => false end.

(** ** The interface *)

Class GlueClient (G : Type) := {
  get_crawler : G -> string -> GlueError + GetCrawlerResponse;
  start_crawler : G -> string -> G * (GlueError + unit)
}.

(** The state a service reports for a crawler, when it reports one. *)
Definition crawler_status `{GlueClient G} (g : G) (n : string) : option string :=
  match get_crawler g n with
  | inr r => Some (State (Crawler r))
  | inl _ => None
  end.

(** What the handler's contract needs of the service: a READY crawler is
    started, a crawler in any other reported state is not, and starting
    one crawler does not change what is reported of another. *)
Class GlueClientLaws (G : Type) `{GlueClient G} := {
  start_crawler_ready : forall g n,
    crawler_status g n = Some "READY" ->
    exists g', start_crawler g n = (g', inr tt) /\ crawler_status g' n = Some "RUNNING";
  start_crawler_busy : forall g n st,
    crawler_status g n = Some st -> st <> "READY" ->
    start_crawler g n = (g, inl CrawlerRunningException);
  start_crawler_frame : forall g n m,
    n <> m -> crawler_status (fst (start_crawler g n)) m = crawler_status g m
}.

(** ** The reference service *)

Record GlueSvc := {
  gs_crawlers : gmap string CrawlerState;
  gs_fault : option string
}.

Definition svc_get_crawler (svc : GlueSvc) (n : string) : GlueError + GetCrawlerResponse :=
  match gs_fault svc with
  | Some code => inl (ClientError code)
  | None =>
      match gs_crawlers svc !! n with
      | Some st => inr {| Crawler := {| Name := n; State := crawler_state_name st |} |}
      | None => inl EntityNotFoundException
      end
  end.

Definition svc_set_state (svc : GlueSvc) (n : string) (st : CrawlerState) : GlueSvc :=
  {| gs_crawlers := <[n := st]> (gs_crawlers svc); gs_fault := gs_fault svc |}.

Definition svc_start_crawler (svc : GlueSvc) (n : string) : GlueSvc * (GlueError + unit) :=
  match gs_fault svc with
  | Some code => (svc, inl (ClientError code))
  | None =>
      match gs_crawlers svc !! n with
      | Some READY => (svc_set_state svc n RUNNING, inr tt)
      | Some _ => (svc, inl CrawlerRunningException)
      | None => (svc, inl EntityNotFoundException)
      end
  end.

(** One step of a crawler's own run: RUNNING -> STOPPING -> READY. *)
Definition svc_crawler_progress (svc : GlueSvc) (n : string) : GlueSvc :=
  match gs_crawlers svc !! n with
  | Some RUNNING => svc_set_state svc n STOPPING
  | Some STOPPING => svc_set_state svc n READY
  | _ => svc
  end.

#[export] Instance GlueSvc_client : GlueClient GlueSvc := {
  get_crawler := svc_get_crawler;
  start_crawler := svc_start_crawler
}.

(** ** Lemmas on the reference service *)

Lemma svc_crawler_status (svc : GlueSvc) (n : string) :
  crawler_status svc n =
    match gs_fault svc with
    | Some _ => None
    | None => crawler_state_name <$> gs_crawlers svc !! n
    end.
Proof.
  unfold crawler_status; cbn; unfold svc_get_crawler.
  destruct (gs_fault svc); [done|]. by destruct (gs_crawlers svc !! n).
Qed.

Lemma svc_set_state_lookup (svc : GlueSvc) n m st :
  gs_crawlers (svc_set_state svc n st) !! m =
    if decide (n = m) then Some st else gs_crawlers svc !! m.
Proof. cbn. by rewrite lookup_insert. Qed.

#[export] Instance GlueSvc_laws : GlueClientLaws GlueSvc.
Proof.
  split.
  - intros g n. rewrite svc_crawler_status. cbn. unfold svc_start_crawler.
    destruct (gs_fault g) eqn:Hf; [done|].
    destruct (gs_crawlers g !! n) as [[]|] eqn:Hl; try done; intros _.
    eexists; split; [done|].
    rewrite svc_crawler_status; cbn. rewrite Hf. by rewrite lookup_insert_eq.
  - intros g n st. rewrite svc_crawler_status. cbn. unfold svc_start_crawler.
    destruct (gs_fault g) eqn:Hf; [done|].
    destruct (gs_crawlers g !! n) as [[]|]; cbn; congruence.
  - intros g n m Hnm. cbn. unfold svc_start_crawler.
    destruct (gs_fault g) eqn:Hf; [done|].
    destruct (gs_crawlers g !! n) as [[]|]; try done.
    rewrite !svc_crawler_status; cbn. rewrite Hf. by rewrite lookup_insert_ne.
Qed.

Lemma crawler_status_Some `{GlueClient G} (g : G) n st :
  crawler_status g n = Some st -> exists r, get_crawler g n = inr r /\ State (Crawler r) = st.
Proof. unfold crawler_status. destruct (get_crawler g n) as [|r]; [done|]. intros [= <-]. by exists r. Qed.
