(* ===== verification/Json.v ===== *)
(** * [json.dumps] on a string

    The handler's response body is [json.dumps('Hello from Lambda!')].  For a
    [str] argument with the default options, [json.dumps] is
    [encode_basestring_ascii] of CPython's json/encoder.py:
    ['"' + ESCAPE_ASCII.sub(replace, s) + '"'] where ESCAPE_ASCII matches a
    backslash, a double quote, or any character outside [' '..'~'];
    ESCAPE_DCT maps backslash, quote, \b, \f, \n, \r, \t to their two
    character escapes and every other match is ['\\u{0:04x}'].

    Characters are [ascii], i.e. the code points 0..255 of a Python [str]:
    the model covers Latin-1 strings. *)

From S2P Require Import Prelude.
From Stdlib Require Import Ascii.

(** ** Encoder *)

Definition hex_digit (d : nat) : ascii :=
  if d <? 10 then ascii_of_nat (48 + d) else ascii_of_nat (87 + d).

(** ['{0:04x}'.format(n)] for [n < 0x10000]. *)
Definition hex4 (n : nat) : string :=
  String (hex_digit (n / 4096 mod 16)) (String (hex_digit (n / 256 mod 16))
    (String (hex_digit (n / 16 mod 16)) (String (hex_digit (n mod 16)) EmptyString))).

Definition backslash : ascii := "092".
Definition dquote : ascii := "034".

(** [replace(match)] of encode_basestring_ascii, extended to the characters
    ESCAPE_ASCII does not match, which it leaves as they are. *)
Definition escape_char (c : ascii) : string :=
  let n := nat_of_ascii c in
  if n =? 92 then String backslash (String backslash EmptyString)
  else if n =? 34 then String backslash (String dquote EmptyString)
  else if n =? 8 then String backslash "b"
  else if n =? 12 then String backslash "f"
  else if n =? 10 then String backslash "n"
  else if n =? 13 then String backslash "r"
  else if n =? 9 then String backslash "t"
  else if (n <? 32) || (126 <? n) then String backslash (String "u" (hex4 n))
  else String c EmptyString.

Fixpoint escape_string (s : string) : string :=
  match s with
  | EmptyString => EmptyString
  | String c s' => escape_char c ++ escape_string s'
  end.

Definition json_dumps_str (s : string) : string :=
  String dquote (escape_string s ++ String dquote EmptyString).
