(* ===== verification/Handler.v ===== *)
(** * The crawler-trigger handler (src/lambda/lambda_handler.py)

    [lambda_handler] is written line by line in the state-and-exception
    monad [exec] of the prelude, over a [World] that holds the Glue service
    the client talks to, the lines printed to stdout, and the API calls the
    client has issued (in order).  The section is generic in the service: it
    needs only the interface [GlueClient], and the contract theorem needs
    the laws [GlueClientLaws].  The theorems give the handler's behaviour on
    every branch of the code, the response on every path that returns, the
    calls it issues, and its contract; the last group instantiates the
    service with the reference [GlueSvc]. *)

From S2P Require Import Prelude GlueApi Json.

(** The requests the Glue client sends, in the order the code sends them. *)
Inductive ApiCall :=
  | GetCrawlerCall (name : string)
  | StartCrawlerCall (name : string).

#[export] Instance ApiCall_eq_dec : EqDecision ApiCall.
Proof. solve_decision. Defined.

Definition is_start_call (c : ApiCall) : bool :=
  match c with StartCrawlerCall _ => true | GetCrawlerCall _ => false end.

(** The dict the handler returns. *)
Record LambdaResponse := { statusCode : Z; body : string }.

(** [crawler_name = 'test-lambda-crawler'] (line 10). *)
Definition crawler_name : string := "test-lambda-crawler".

(** The returned dict (lines 27-30). *)
Definition handler_response : LambdaResponse :=
  {| statusCode := 200; body := json_dumps_str "Hello from Lambda!" |}.

Section Handler.
Context {G : Type} `{!GlueClient G}.

Record World := {
  w_glue : G;
  w_stdout : list string;
  w_calls : list ApiCall
}.

Definition py := exec World GlueError.

Definition print (line : string) : py unit :=
  modify (fun w => {| w_glue := w_glue w; w_stdout := w_stdout w ++ [line];
                      w_calls := w_calls w |}).

Definition record_call (c : ApiCall) (g : G) (w : World) : World :=
  {| w_glue := g; w_stdout := w_stdout w; w_calls := w_calls w ++ [c] |}.

(** [glue.get_crawler(Name=...)]: the request is sent, then the response
    is returned or its error raised. *)
Definition glue_get_crawler (Name : string) : py GetCrawlerResponse :=
  fun w =>
    let w' := record_call (GetCrawlerCall Name) (w_glue w) w in
    match get_crawler (w_glue w) Name with
    | inr r => (w', Returned r)
    | inl e => (w', Raised e)
    end.

(** [glue.start_crawler(Name=...)]. *)
Definition glue_start_crawler (Name : string) : py unit :=
  fun w =>
    let '(g', r) := start_crawler (w_glue w) Name in
    let w' := record_call (StartCrawlerCall Name) g' w in
    match r with
    | inr _ => (w', Returned tt)
    | inl e => (w', Raised e)
    end.

(** Lines 14-21: the test of the state and the start. *)
Definition start_unless_running (response : GetCrawlerResponse) : py unit :=
  let crawler_state := State (Crawler response) in
  if negb (String.eqb crawler_state "RUNNING") then
    glue_start_crawler crawler_name ;;
    print ("Started Glue crawler: " +:+ crawler_name)
  else
    print ("Glue crawler " +:+ crawler_name +:+ " is already running.").

(** The body of the [try] (lines 13-21). *)
Definition check_and_start : py unit :=
  response ← glue_get_crawler crawler_name;
  start_unless_running response.

(** Lines 12-30 around a [try] body: the [except] clause, the last print
    and the return. *)
Definition handler_tail (try_body : py unit) : py LambdaResponse :=
  (try: try_body
   except is_entity_not_found => print ("Glue crawler " +:+ crawler_name +:+ " not found."))%exec ;;
  print "lambda1 finished - cdk" ;;
  mret handler_response.

(** [lambda_handler(event, context)] (lines 7-30).  Creating the client
    ([boto3.client('glue')]) sends no request. *)
Definition lambda_handler {Ev Ctx : Type} (event : Ev) (context : Ctx) : py LambdaResponse :=
  print "lambda1 invoked - cdk" ;;
  handler_tail check_and_start.
End Handler.

Arguments World G : clear implicits.

(** ** Runs of the handler, one lemma per outcome of the two calls *)

(** The world after the calls [calls] and the printed [lines], with the
    service left as [g]. *)
Definition after {G} (w : World G) (g : G) (lines : list string) (calls : list ApiCall) : World G :=
  {| w_glue := g; w_stdout := w_stdout w ++ lines; w_calls := w_calls w ++ calls |}.

Ltac handler_unfold :=
  unfold lambda_handler, handler_tail, check_and_start, start_unless_running,
    glue_get_crawler, glue_start_crawler,
    print, try_except, modify, mbind, exec_bind, mret, exec_ret, after, record_call;
  cbn -[crawler_name get_crawler start_crawler handler_response].

Section HandlerRuns.
Context {G : Type} `{!GlueClient G} {Ev Ctx : Type} (event : Ev) (context : Ctx).
Implicit Types (w : World G).

Lemma lambda_handler_get_error w e :
  get_crawler (w_glue w) crawler_name = inl e ->
  lambda_handler event context w =
    if is_entity_not_found e then
      (after w (w_glue w)
         ["lambda1 invoked - cdk"; "Glue crawler test-lambda-crawler not found.";
          "lambda1 finished - cdk"] [GetCrawlerCall crawler_name], Returned handler_response)
    else
      (after w (w_glue w) ["lambda1 invoked - cdk"] [GetCrawlerCall crawler_name], Raised e).
Proof.
  intros Hg. handler_unfold. rewrite Hg. cbn.
  destruct (is_entity_not_found e); cbn; by rewrite <- ?app_assoc.
Qed.

Lemma lambda_handler_running w r :
  get_crawler (w_glue w) crawler_name = inr r -> State (Crawler r) = "RUNNING" ->
  lambda_handler event context w =
    (after w (w_glue w)
       ["lambda1 invoked - cdk"; "Glue crawler test-lambda-crawler is already running.";
        "lambda1 finished - cdk"] [GetCrawlerCall crawler_name], Returned handler_response).
Proof. intros Hg Hs. handler_unfold. rewrite Hg, Hs. cbn. by rewrite <- !app_assoc. Qed.

Lemma lambda_handler_start w r g' res :
  get_crawler (w_glue w) crawler_name = inr r -> State (Crawler r) <> "RUNNING" ->
  start_crawler (w_glue w) crawler_name = (g', res) ->
  lambda_handler event context w =
    let calls := [GetCrawlerCall crawler_name; StartCrawlerCall crawler_name] in
    match res with
    | inr _ =>
        (after w g' ["lambda1 invoked - cdk"; "Started Glue crawler: test-lambda-crawler";
                     "lambda1 finished - cdk"] calls, Returned handler_response)
    | inl e =>
        if is_entity_not_found e then
          (after w g' ["lambda1 invoked - cdk"; "Glue crawler test-lambda-crawler not found.";
                       "lambda1 finished - cdk"] calls, Returned handler_response)
        else (after w g' ["lambda1 invoked - cdk"] calls, Raised e)
    end.
Proof.
  intros Hg Hs Hst. handler_unfold. rewrite Hg, string_eqb_neq by done. cbn.
  rewrite Hst. destruct res as [e|]; cbn; [destruct (is_entity_not_found e)|]; cbn;
    by rewrite <- ?app_assoc.

Qed.
End HandlerRuns.

(** Every run: the calls issued are a query, possibly followed by one start
    of the same crawler, and a run that returns returns [handler_response]. *)
Lemma lambda_handler_shape {G} `{!GlueClient G} {Ev Ctx} (event : Ev) (context : Ctx)
    (w : World G) :
  exists g lines calls o,
    lambda_handler event context w = (after w g lines calls, o) /\
    (calls = [GetCrawlerCall crawler_name] \/
     calls = [GetCrawlerCall crawler_name; StartCrawlerCall crawler_name]) /\
    (forall r, o = Returned r -> r = handler_response).
Proof.
  destruct (get_crawler (w_glue w) crawler_name) as [e|r] eqn:Hg.
  { rewrite (lambda_handler_get_error _ _ _ _ Hg).
    destruct (is_entity_not_found e);
      (do 4 eexists; split; [done|]; split; [by left | by intros ? [= ->]]). }
  destruct (String.eqb_spec (State (Crawler r)) "RUNNING") as [Hs|Hs].
  { rewrite (lambda_handler_running _ _ _ _ Hg Hs). do 4 eexists; split; [done|].
    split; [by left | by intros ? [= ->]]. }
  destruct (start_crawler (w_glue w) crawler_name) as [g' res] eqn:Hst.
  rewrite (lambda_handler_start _ _ _ _ _ _ Hg Hs Hst).
  destruct res as [e|]; [destruct (is_entity_not_found e)|]; cbn;
    (do 4 eexists; split; [done|]; split; [by right | by intros ? [= ->]]).
Qed.

(** A world holding service [g], before any output or call. *)
Definition glue_world {G} (g : G) : World G := {| w_glue := g; w_stdout := []; w_calls := [] |}.

(** The handler is stateless: what it leaves and returns depends on the
    service only, not on the event, the context, or what was printed and
    sent before; it appends its own lines and calls. *)
Lemma lambda_handler_frame {G} `{!GlueClient G} {Ev Ctx} (event : Ev) (context : Ctx)
    (w : World G) :
  lambda_handler event context w =
    let '(w0, o) := lambda_handler tt tt (glue_world (w_glue w)) in
    (after w (w_glue w0) (w_stdout w0) (w_calls w0), o).
Proof.
  set (w' := glue_world (w_glue w)).
  destruct (get_crawler (w_glue w) crawler_name) as [e|r] eqn:Hg.
  { rewrite (lambda_handler_get_error _ _ w _ Hg), (lambda_handler_get_error tt tt w' _ Hg).
    by destruct (is_entity_not_found e). }
  destruct (String.eqb_spec (State (Crawler r)) "RUNNING") as [Hs|Hs].
  { by rewrite (lambda_handler_running _ _ w _ Hg Hs), (lambda_handler_running tt tt w' _ Hg Hs). }
  destruct (start_crawler (w_glue w) crawler_name) as [g' res] eqn:Hst.
  rewrite (lambda_handler_start _ _ w _ _ _ Hg Hs Hst), (lambda_handler_start tt tt w' _ _ _ Hg Hs Hst).
  destruct res as [e|]; [destruct (is_entity_not_found e)|]; done.
Qed.

(** ** The handler's behaviour *)

Section HandlerSpec.
Context {G : Type} `{!GlueClient G} {Ev Ctx : Type} (event : Ev) (context : Ctx).
Implicit Types (w : World G).

(** C1: given a crawler in state READY (and a service obeying the laws),
    the handler sends one query and exactly one start command, prints the
    start, returns the success response, and leaves the crawler RUNNING. *)
Theorem lambda_handler_ready `{!GlueClientLaws G} w :
  crawler_status (w_glue w) crawler_name = Some "READY" ->
  exists g',
    lambda_handler event context w =
      (after w g' ["lambda1 invoked - cdk"; "Started Glue crawler: test-lambda-crawler";
                   "lambda1 finished - cdk"]
             [GetCrawlerCall crawler_name; StartCrawlerCall crawler_name],
       Returned handler_response) /\
    crawler_status g' crawler_name = Some "RUNNING".
Proof.
  intros Hs. destruct (start_crawler_ready _ _ Hs) as (g' & Hst & Hrun).
  destruct (crawler_status_Some _ _ _ Hs) as (r & Hg & Hr).
  exists g'. split; [|done].
  assert (Hnr : State (Crawler r) <> "RUNNING") by (rewrite Hr; str_neq).
  by rewrite (lambda_handler_start _ _ _ _ _ _ Hg Hnr Hst).
Qed.

(** C2: given a crawler in state RUNNING, the handler sends the query
    only, no start command, leaves the service as it was and returns the
    success response. *)
Theorem lambda_handler_running_no_start w :
  crawler_status (w_glue w) crawler_name = Some "RUNNING" ->
  lambda_handler event context w =
    (after w (w_glue w)
       ["lambda1 invoked - cdk"; "Glue crawler test-lambda-crawler is already running.";
        "lambda1 finished - cdk"] [GetCrawlerCall crawler_name], Returned handler_response).
Proof.
  intros Hs. destruct (crawler_status_Some _ _ _ Hs) as (r & Hg & Hr).
  exact (lambda_handler_running _ _ _ _ Hg Hr).
Qed.

(** C3: when the query fails with EntityNotFoundException, the handler
    sends no start command, does not propagate the error, and returns the
    success response after printing that the crawler was not found. *)
Theorem lambda_handler_not_found w :
  get_crawler (w_glue w) crawler_name = inl EntityNotFoundException ->
  lambda_handler event context w =
    (after w (w_glue w)
       ["lambda1 invoked - cdk"; "Glue crawler test-lambda-crawler not found.";
        "lambda1 finished - cdk"] [GetCrawlerCall crawler_name], Returned handler_response).
Proof. intros Hg. exact (lambda_handler_get_error _ _ _ _ Hg). Qed.

(** C4: when the query fails with any other error, the handler raises
    that error to the platform, after the first print and the query, and
    sends no start command. *)
Theorem lambda_handler_error_propagates w e :
  get_crawler (w_glue w) crawler_name = inl e -> e <> EntityNotFoundException ->
  lambda_handler event context w =
    (after w (w_glue w) ["lambda1 invoked - cdk"] [GetCrawlerCall crawler_name], Raised e).
Proof.
  intros Hg He. rewrite (lambda_handler_get_error _ _ _ _ Hg).
  by destruct e.
Qed.

(** C5: on every path that returns, the response is status code 200 with
    body [json.dumps('Hello from Lambda!')]. *)
Theorem lambda_handler_returns_200 w w' r :
  lambda_handler event context w = (w', Returned r) ->
  statusCode r = 200%Z /\ body r = json_dumps_str "Hello from Lambda!".
Proof.
  destruct (lambda_handler_shape event context w) as (g & lines & calls & o & Heq & _ & Hr).
  rewrite Heq. intros [= _ ->]. by rewrite (Hr r eq_refl).
Qed.

(** C7: the handler's contract, from the service laws: when it returns
    and the crawler exists, the crawler is RUNNING afterwards. *)
Theorem lambda_handler_ensures_running `{!GlueClientLaws G} w w' r :
  lambda_handler event context w = (w', Returned r) ->
  crawler_status (w_glue w) crawler_name <> None ->
  crawler_status (w_glue w') crawler_name = Some "RUNNING".
Proof.
  intros Hrun Hex. destruct (crawler_status (w_glue w) crawler_name) as [st|] eqn:Hs; [|done].
  destruct (decide (st = "RUNNING")) as [->|Hnr].
  { rewrite lambda_handler_running_no_start in Hrun by done. by injection Hrun as <-. }
  destruct (crawler_status_Some _ _ _ Hs) as (r0 & Hg & Hr0).
  destruct (decide (st = "READY")) as [->|Hnready].
  - destruct (lambda_handler_ready w Hs) as (g' & Hrun' & Hg').
    rewrite Hrun' in Hrun. by injection Hrun as <-.
  - assert (Hnr' : State (Crawler r0) <> "RUNNING") by by rewrite Hr0.
    rewrite (lambda_handler_start _ _ _ _ _ _ Hg Hnr' (start_crawler_busy _ _ _ Hs Hnready))
      in Hrun.
    discriminate Hrun.
Qed.

(** C11: the handler sends the query, then at most one start command,
    both for ["test-lambda-crawler"], and nothing else. *)
Theorem lambda_handler_calls w w' o :
  lambda_handler event context w = (w', o) ->
  w_calls w' = w_calls w ++ [GetCrawlerCall crawler_name] \/
  w_calls w' = w_calls w ++ [GetCrawlerCall crawler_name; StartCrawlerCall crawler_name].
Proof.
  destruct (lambda_handler_shape event context w) as (g & lines & calls & o' & Heq & Hc & _).
  rewrite Heq. intros [= <- _]. cbn. destruct Hc as [-> | ->]; auto.
Qed.
End HandlerSpec.

(** ** Against the reference service *)

(** A world with the given crawlers and fault, before any output or call. *)
Definition svc_world (crawlers : gmap string CrawlerState) (fault : option string) :
    World GlueSvc :=
  {| w_glue := {| gs_crawlers := crawlers; gs_fault := fault |}; w_stdout := []; w_calls := [] |}.

(** C10: a crawler that is STOPPING (its run is ending) is "not RUNNING" to
    the code, so the handler sends a start command; the service rejects it
    with CrawlerRunningException, which the code does not catch: the
    invocation fails. *)
Theorem lambda_handler_stopping_raises {Ev Ctx} (event : Ev) (context : Ctx) (w : World GlueSvc) :
  gs_fault (w_glue w) = None ->
  gs_crawlers (w_glue w) !! crawler_name = Some STOPPING ->
  lambda_handler event context w =
    (after w (w_glue w) ["lambda1 invoked - cdk"]
           [GetCrawlerCall crawler_name; StartCrawlerCall crawler_name],
     Raised CrawlerRunningException).
Proof.
  intros Hf Hl.
  assert (Hg : get_crawler (w_glue w) crawler_name =
                 inr {| Crawler := {| Name := crawler_name; State := "STOPPING" |} |})
    by (cbn; unfold svc_get_crawler; by rewrite Hf, Hl).
  assert (Hst : start_crawler (w_glue w) crawler_name = (w_glue w, inl CrawlerRunningException))
    by (cbn; unfold svc_start_crawler; by rewrite Hf, Hl).
  assert (Hnr : State (Crawler {| Crawler := {| Name := crawler_name; State := "STOPPING" |} |})
                  <> "RUNNING") by (cbn; str_neq).
  exact (lambda_handler_start _ _ _ _ _ _ Hg Hnr Hst).
Qed.

(** ** Witnesses: the theorems at concrete worlds *)

Lemma lambda_handler_ready_witness :
  crawler_status (w_glue (svc_world {[crawler_name := READY]} None)) crawler_name = Some "READY" /\
  exists g',
    lambda_handler tt tt (svc_world {[crawler_name := READY]} None) =
      (after (svc_world {[crawler_name := READY]} None) g'
         ["lambda1 invoked - cdk"; "Started Glue crawler: test-lambda-crawler";
          "lambda1 finished - cdk"]
         [GetCrawlerCall crawler_name; StartCrawlerCall crawler_name],
       Returned handler_response) /\
    crawler_status g' crawler_name = Some "RUNNING".
Proof.
  split; [vm_compute; reflexivity|].
  apply (lambda_handler_ready tt tt); vm_compute; reflexivity.
Defined.

Lemma lambda_handler_running_no_start_witness :
  crawler_status (w_glue (svc_world {[crawler_name := RUNNING]} None)) crawler_name = Some "RUNNING" /\
  lambda_handler tt tt (svc_world {[crawler_name := RUNNING]} None) =
    (after (svc_world {[crawler_name := RUNNING]} None)
       (w_glue (svc_world {[crawler_name := RUNNING]} None))
       ["lambda1 invoked - cdk"; "Glue crawler test-lambda-crawler is already running.";
        "lambda1 finished - cdk"] [GetCrawlerCall crawler_name], Returned handler_response).
Proof.
  split; [vm_compute; reflexivity|].
  apply lambda_handler_running_no_start; vm_compute; reflexivity.
Defined.

Lemma lambda_handler_not_found_witness :
  get_crawler (w_glue (svc_world ∅ None)) crawler_name = inl EntityNotFoundException /\
  lambda_handler tt tt (svc_world ∅ None) =
    (after (svc_world ∅ None) (w_glue (svc_world ∅ None))
       ["lambda1 invoked - cdk"; "Glue crawler test-lambda-crawler not found.";
        "lambda1 finished - cdk"] [GetCrawlerCall crawler_name], Returned handler_response).
Proof. split; [reflexivity | apply lambda_handler_not_found; reflexivity]. Defined.

Lemma lambda_handler_error_propagates_witness :
  get_crawler (w_glue (svc_world ∅ (Some "ThrottlingException"))) crawler_name =
    inl (ClientError "ThrottlingException") /\
  lambda_handler tt tt (svc_world ∅ (Some "ThrottlingException")) =
    (after (svc_world ∅ (Some "ThrottlingException"))
       (w_glue (svc_world ∅ (Some "ThrottlingException")))
       ["lambda1 invoked - cdk"] [GetCrawlerCall crawler_name],
     Raised (ClientError "ThrottlingException")).
Proof.
  split; [reflexivity|].
  apply lambda_handler_error_propagates; [reflexivity | discriminate].
Defined.

Lemma lambda_handler_returns_200_witness :
  statusCode handler_response = 200%Z /\ body handler_response = json_dumps_str "Hello from Lambda!".
Proof.
  apply (lambda_handler_returns_200 tt tt (svc_world ∅ None)
           (after (svc_world ∅ None) (w_glue (svc_world ∅ None))
              ["lambda1 invoked - cdk"; "Glue crawler test-lambda-crawler not found.";
               "lambda1 finished - cdk"] [GetCrawlerCall crawler_name])).
  vm_compute. reflexivity.
Defined.

Lemma lambda_handler_ensures_running_witness :
  crawler_status (w_glue (fst (lambda_handler tt tt (svc_world {[crawler_name := READY]} None))))
    crawler_name = Some "RUNNING".
Proof.
  apply (lambda_handler_ensures_running tt tt (svc_world {[crawler_name := READY]} None) _
           handler_response); vm_compute; [reflexivity | discriminate].
Defined.

Lemma lambda_handler_calls_witness :
  w_calls (fst (lambda_handler tt tt (svc_world {[crawler_name := STOPPING]} None))) =
    [GetCrawlerCall crawler_name] \/
  w_calls (fst (lambda_handler tt tt (svc_world {[crawler_name := STOPPING]} None))) =
    [GetCrawlerCall crawler_name; StartCrawlerCall crawler_name].
Proof.
  apply (lambda_handler_calls tt tt (svc_world {[crawler_name := STOPPING]} None) _
           (snd (lambda_handler tt tt (svc_world {[crawler_name := STOPPING]} None)))).
  vm_compute. reflexivity.
Defined.

Lemma lambda_handler_stopping_raises_witness :
  gs_fault (w_glue (svc_world {[crawler_name := STOPPING]} None)) = None /\
  lambda_handler tt tt (svc_world {[crawler_name := STOPPING]} None) =
    (after (svc_world {[crawler_name := STOPPING]} None)
       (w_glue (svc_world {[crawler_name := STOPPING]} None)) ["lambda1 invoked - cdk"]
       [GetCrawlerCall crawler_name; StartCrawlerCall crawler_name],
     Raised CrawlerRunningException).
Proof.
  split; [reflexivity|].
  apply lambda_handler_stopping_raises; [reflexivity | vm_compute; reflexivity].
Defined.
