(* ===== verification/Invocations.v ===== *)
(** * Concurrent invocations of the handler

    The platform runs one invocation of [lambda_handler] per event and may
    run several at once against the same crawler (spec, section 5).  An
    invocation touches shared state twice: the query ([get_crawler], line
    13) and the act ([start_crawler], line 18).  [handler_query] and
    [handler_act] are the handler cut at that point, [handler_split] shows
    that running them back to back is [lambda_handler].  A system [Sys]
    holds the reference Glue service, the API calls sent so far (by all
    invocations, in order), and each invocation's stdout and program
    counter.  [inv_step] advances one invocation by one of its two steps;
    [step] adds the crawler's own progress RUNNING -> STOPPING -> READY.
    Reachability is stdpp's [rtc]. *)

From S2P Require Import Prelude GlueApi Json Handler.
From stdpp Require Import relations.

(** ** The handler cut at its query *)

Section Split.
Context {G : Type} `{!GlueClient G}.

(** Lines 8-13: the first print and the query; the query's exception is
    kept as a value, to be raised by the act step. *)
Definition handler_query : py (GlueError + GetCrawlerResponse) :=
  print "lambda1 invoked - cdk" ;;
  attempt (glue_get_crawler crawler_name).

(** Lines 14-30 once the query has answered [r]. *)
Definition handler_act (r : GlueError + GetCrawlerResponse) : py LambdaResponse :=
  handler_tail (response ← of_sum r; start_unless_running response).

Lemma handler_split {Ev Ctx} (event : Ev) (context : Ctx) (w : World G) :
  lambda_handler event context w = (r ← handler_query; handler_act r) w.
Proof.
  unfold lambda_handler, handler_query, handler_act, handler_tail, check_and_start.
  unfold mbind at 1 3 4, exec_bind at 1 3 4. cbn [print modify].
  apply (try_except_attempt (glue_get_crawler crawler_name) start_unless_running).
Qed.
End Split.

(** ** The system *)

(** Where an invocation is: before the query, between query and act (the
    query's answer known), or finished with the handler's outcome. *)
Inductive Pc :=
  | AtQuery
  | AtAct (r : GlueError + GetCrawlerResponse)
  | Finished (o : outcome GlueError LambdaResponse).

Record Invocation := { inv_stdout : list string; inv_pc : Pc }.

Record Sys := {
  sys_glue : GlueSvc;
  sys_calls : list ApiCall;
  sys_invs : list Invocation
}.

(** What invocation [inv] sees: the shared service and call log, its own
    stdout. *)
Definition inv_world (s : Sys) (inv : Invocation) : World GlueSvc :=
  {| w_glue := sys_glue s; w_stdout := inv_stdout inv; w_calls := sys_calls s |}.

(** Write back what invocation [i] did. *)
Definition commit (s : Sys) (i : nat) (w : World GlueSvc) (pc : Pc) : Sys :=
  {| sys_glue := w_glue w; sys_calls := w_calls w;
     sys_invs := <[i := {| inv_stdout := w_stdout w; inv_pc := pc |}]> (sys_invs s) |}.

(** One step of invocation [i]; [None] when it has finished or does not
    exist. *)
Definition inv_step (s : Sys) (i : nat) : option Sys :=
  match sys_invs s !! i with
  | Some inv =>
      match inv_pc inv with
      | AtQuery =>
          match handler_query (inv_world s inv) with
          | (w, Returned r) => Some (commit s i w (AtAct r))
          | (w, Raised e) => Some (commit s i w (Finished (Raised e)))
          end
      | AtAct r =>
          let '(w, o) := handler_act r (inv_world s inv) in
          Some (commit s i w (Finished o))
      | Finished _ => None
      end
  | None => None
  end.

(** A step of some invocation. *)
Definition hstep (s s' : Sys) : Prop := exists i, inv_step s i = Some s'.

(** A step of some invocation, or of the crawler's own run. *)
Inductive step : Sys -> Sys -> Prop :=
  | step_invocation s s' : hstep s s' -> step s s'
  | step_crawler s n :
      step s {| sys_glue := svc_crawler_progress (sys_glue s) n;
                sys_calls := sys_calls s; sys_invs := sys_invs s |}.

Definition fresh_invocation : Invocation := {| inv_stdout := []; inv_pc := AtQuery |}.

(** [n] invocations triggered by [n] events, none of which has run yet. *)
Definition start_sys (svc : GlueSvc) (n : nat) : Sys :=
  {| sys_glue := svc; sys_calls := []; sys_invs := replicate n fresh_invocation |}.

(** ** The two steps, computed *)

Section Steps.
Context {G : Type} `{!GlueClient G}.
Implicit Types (w : World G).

Lemma handler_query_run w :
  handler_query w =
    (after w (w_glue w) ["lambda1 invoked - cdk"] [GetCrawlerCall crawler_name],
     Returned (get_crawler (w_glue w) crawler_name)).
Proof.
  unfold handler_query, attempt. handler_unfold. by destruct (get_crawler _ _).
Qed.

Lemma handler_act_error w e :
  handler_act (inl e) w =
    if is_entity_not_found e then
      (after w (w_glue w) ["Glue crawler test-lambda-crawler not found."; "lambda1 finished - cdk"] [],
       Returned handler_response)
    else (w, Raised e).
Proof.
  unfold handler_act. handler_unfold. unfold of_sum, raise.
  destruct (is_entity_not_found e); cbn; by rewrite ?app_nil_r, <- ?app_assoc.
Qed.

Lemma handler_act_running w r :
  State (Crawler r) = "RUNNING" ->
  handler_act (inr r) w =
    (after w (w_glue w) ["Glue crawler test-lambda-crawler is already running.";
                         "lambda1 finished - cdk"] [], Returned handler_response).
Proof.
  intros Hs. unfold handler_act. handler_unfold. rewrite Hs. cbn.
  by rewrite app_nil_r, <- app_assoc.
Qed.

Lemma handler_act_start w r g' res :
  State (Crawler r) <> "RUNNING" ->
  start_crawler (w_glue w) crawler_name = (g', res) ->
  handler_act (inr r) w =
    match res with
    | inr _ =>
        (after w g' ["Started Glue crawler: test-lambda-crawler"; "lambda1 finished - cdk"]
           [StartCrawlerCall crawler_name], Returned handler_response)
    | inl e =>
        if is_entity_not_found e then
          (after w g' ["Glue crawler test-lambda-crawler not found."; "lambda1 finished - cdk"]
             [StartCrawlerCall crawler_name], Returned handler_response)
        else (after w g' [] [StartCrawlerCall crawler_name], Raised e)
    end.
Proof.
  intros Hs Hst. unfold handler_act. handler_unfold. rewrite string_eqb_neq by done. cbn.
  rewrite Hst. destruct res as [e|]; cbn; [destruct (is_entity_not_found e)|]; cbn;
    by rewrite ?app_nil_r, <- ?app_assoc.
Qed.

(** The handler is its act step run on the query's answer. *)
Lemma lambda_handler_as_steps {Ev Ctx} (event : Ev) (context : Ctx) w :
  lambda_handler event context w =
    handler_act (get_crawler (w_glue w) crawler_name)
      (after w (w_glue w) ["lambda1 invoked - cdk"] [GetCrawlerCall crawler_name]).
Proof.
  rewrite handler_split. unfold mbind at 1, exec_bind at 1. by rewrite handler_query_run.
Qed.
End Steps.

(** ** One step of an invocation, by its program counter *)

Lemma inv_step_query s i inv :
  sys_invs s !! i = Some inv -> inv_pc inv = AtQuery ->
  inv_step s i =
    Some (commit s i (after (inv_world s inv) (sys_glue s) ["lambda1 invoked - cdk"]
                            [GetCrawlerCall crawler_name])
                 (AtAct (get_crawler (sys_glue s) crawler_name))).
Proof. intros Hi Hpc. unfold inv_step. by rewrite Hi, Hpc, handler_query_run. Qed.

Lemma inv_step_act s i inv r :
  sys_invs s !! i = Some inv -> inv_pc inv = AtAct r ->
  inv_step s i = Some (commit s i (handler_act r (inv_world s inv)).1
                              (Finished (handler_act r (inv_world s inv)).2)).
Proof. intros Hi Hpc. unfold inv_step. rewrite Hi, Hpc. by destruct (handler_act _ _). Qed.

Lemma inv_step_Some s i s' :
  inv_step s i = Some s' ->
  exists inv, sys_invs s !! i = Some inv /\
    ((inv_pc inv = AtQuery /\
      s' = commit s i (after (inv_world s inv) (sys_glue s) ["lambda1 invoked - cdk"]
                             [GetCrawlerCall crawler_name])
                  (AtAct (get_crawler (sys_glue s) crawler_name))) \/
     (exists r, inv_pc inv = AtAct r /\
      s' = commit s i (handler_act r (inv_world s inv)).1
                  (Finished (handler_act r (inv_world s inv)).2))).
Proof.
  intros Hst. destruct (sys_invs s !! i) as [inv|] eqn:Hi; [|by unfold inv_step in Hst; rewrite Hi in Hst].
  exists inv. split; [done|].
  destruct (inv_pc inv) as [|r|o] eqn:Hpc.
  - left. split; [done|]. rewrite (inv_step_query _ _ _ Hi Hpc) in Hst. by injection Hst.
  - right. exists r. split; [done|]. rewrite (inv_step_act _ _ _ _ Hi Hpc) in Hst. by injection Hst.
  - unfold inv_step in Hst. by rewrite Hi, Hpc in Hst.
Qed.

(** The service answers a query about a crawler it holds. *)
Lemma svc_get_crawler_state (svc : GlueSvc) st :
  gs_fault svc = None -> gs_crawlers svc !! crawler_name = Some st ->
  get_crawler svc crawler_name =
    inr {| Crawler := {| Name := crawler_name; State := crawler_state_name st |} |}.
Proof. intros Hf Hl. cbn. unfold svc_get_crawler. by rewrite Hf, Hl. Qed.

Lemma svc_start_crawler_state (svc : GlueSvc) st :
  gs_fault svc = None -> gs_crawlers svc !! crawler_name = Some st ->
  start_crawler svc crawler_name =
    if decide (st = READY) then (svc_set_state svc crawler_name RUNNING, inr tt)
    else (svc, inl CrawlerRunningException).
Proof. intros Hf Hl. cbn. unfold svc_start_crawler. rewrite Hf, Hl. by destruct st. Qed.

(** ** No start command while the crawler runs *)

(** What an invocation may look like while the crawler runs: not started,
    having seen RUNNING, or finished with the success response. *)
Definition running_view (inv : Invocation) : Prop :=
  inv_pc inv = AtQuery \/
  (exists r, inv_pc inv = AtAct (inr r) /\ State (Crawler r) = "RUNNING") \/
  inv_pc inv = Finished (Returned handler_response).

Definition svc_running (svc : GlueSvc) : Prop :=
  gs_fault svc = None /\ gs_crawlers svc !! crawler_name = Some RUNNING.

Lemma hstep_while_running s s' :
  hstep s s' -> svc_running (sys_glue s) -> Forall running_view (sys_invs s) ->
  sys_glue s' = sys_glue s /\ Forall running_view (sys_invs s') /\
  exists l, sys_calls s' = sys_calls s ++ l /\ count_if is_start_call l = 0.
Proof.
  intros [i Hst] [Hf Hl] Hall.
  destruct (inv_step_Some _ _ _ Hst) as (inv & Hi & [[Hpc ->] | (r & Hpc & ->)]).
  - rewrite (svc_get_crawler_state _ _ Hf Hl). cbn. split; [done|]. split.
    + apply Forall_insert; [done|]. right; left. by eexists.
    + by eexists.
  - pose proof (proj1 (Forall_lookup _ _) Hall i inv Hi) as Hv.
    destruct Hv as [Hq | [(r' & Hr & Hs) | Hd]]; rewrite Hpc in *; try discriminate.
    injection Hr as ->. rewrite (handler_act_running _ _ Hs). cbn. split; [done|]. split.
    + apply Forall_insert; [done|]. by right; right.
    + exists []. by rewrite app_nil_r.
Qed.

(** C6: whatever the interleaving of any number of invocations, while the
    crawler is RUNNING no start command is sent, the service is left as it
    is, and every invocation that has finished returned the success
    response. *)
Theorem no_start_while_running (svc : GlueSvc) n s' :
  gs_fault svc = None -> gs_crawlers svc !! crawler_name = Some RUNNING ->
  rtc hstep (start_sys svc n) s' ->
  count_if is_start_call (sys_calls s') = 0 /\ sys_glue s' = svc /\
  Forall (fun inv => forall o, inv_pc inv = Finished o -> o = Returned handler_response)
    (sys_invs s').
Proof.
  intros Hf Hl Hrtc.
  assert (Inv : sys_glue s' = svc /\ Forall running_view (sys_invs s') /\
                count_if is_start_call (sys_calls s') = 0).
  { refine (rtc_invariant hstep (fun s => sys_glue s = svc /\
        Forall running_view (sys_invs s) /\ count_if is_start_call (sys_calls s) = 0)
        _ _ _ Hrtc _).
    - intros s1 s2 Hst (Hg & Hv & Hc).
      destruct (hstep_while_running _ _ Hst) as (Hg' & Hv' & l & Hcalls & Hl0);
        [by rewrite Hg | done |].
      split; [congruence|]. split; [done|]. by rewrite Hcalls, count_if_app, Hc, Hl0.
    - split; [done|]. split; [|done]. apply Forall_replicate. by left. }
  destruct Inv as (Hg & Hv & Hc). split; [done|]. split; [done|].
  eapply Forall_impl; [exact Hv|]. intros inv [Hq | [(r & Hr & _) | Hd]] o Ho; congruence.
Qed.

(** ** At most one successful start per READY period *)

Definition started_line : string := "Started Glue crawler: test-lambda-crawler".

(** Whether an invocation has printed line 19, i.e. its [start_crawler]
    call returned. *)
Definition started (inv : Invocation) : bool := bool_decide (started_line ∈ inv_stdout inv).

Definition once_view (inv : Invocation) : Prop :=
  (exists o, inv_pc inv = Finished o) \/ started inv = false.

(** The service holds the crawler, READY before any start succeeded and
    RUNNING after exactly one did; only finished invocations have started
    it. *)
Definition once_inv (s : Sys) : Prop :=
  gs_fault (sys_glue s) = None /\ Forall once_view (sys_invs s) /\
  ((gs_crawlers (sys_glue s) !! crawler_name = Some READY /\ count_if started (sys_invs s) = 0) \/
   (gs_crawlers (sys_glue s) !! crawler_name = Some RUNNING /\ count_if started (sys_invs s) = 1)).

(** A step that leaves the service alone and prints no start line. *)
Lemma once_inv_quiet s i inv w pc :
  sys_invs s !! i = Some inv -> started inv = false -> once_inv s ->
  w_glue w = sys_glue s -> bool_decide (started_line ∈ w_stdout w) = false ->
  once_inv (commit s i w pc).
Proof.
  intros Hi Hs (Hf & Hall & Hc) Hg Hnew. unfold once_inv, commit; cbn [sys_glue sys_invs].
  rewrite Hg.
  pose proof (count_if_insert started _ i {| inv_stdout := w_stdout w; inv_pc := pc |} _ Hi) as Hn.
  change (started {| inv_stdout := w_stdout w; inv_pc := pc |})
    with (bool_decide (started_line ∈ w_stdout w)) in Hn.
  rewrite Hs, Hnew in Hn. cbv beta iota in Hn.
  split; [done|]. split; [apply Forall_insert; [done | by right]|].
  destruct Hc as [[? ?] | [? ?]]; [left | right]; split; auto; lia.
Qed.

(** The step whose start succeeds: the crawler was READY, it is RUNNING
    now, and the invocation printed the start line. *)
Lemma once_inv_start s i inv w o :
  sys_invs s !! i = Some inv -> started inv = false -> once_inv s ->
  gs_crawlers (sys_glue s) !! crawler_name = Some READY ->
  w_glue w = svc_set_state (sys_glue s) crawler_name RUNNING ->
  bool_decide (started_line ∈ w_stdout w) = true ->
  once_inv (commit s i w (Finished o)).
Proof.
  intros Hi Hs (Hf & Hall & Hc) Hready Hg Hnew. unfold once_inv, commit; cbn [sys_glue sys_invs].
  rewrite Hg. unfold svc_set_state; cbn [gs_crawlers gs_fault].
  pose proof (count_if_insert started _ i {| inv_stdout := w_stdout w; inv_pc := Finished o |} _ Hi)
    as Hn.
  change (started {| inv_stdout := w_stdout w; inv_pc := Finished o |})
    with (bool_decide (started_line ∈ w_stdout w)) in Hn.
  rewrite Hs, Hnew in Hn. cbv beta iota in Hn.
  split; [done|]. split; [apply Forall_insert; [done | left; by eexists]|].
  destruct Hc as [[_ Hc] | [Hr _]]; [|congruence].
  right. split; [by rewrite lookup_insert_eq | lia].
Qed.

Lemma hstep_once s s' : hstep s s' -> once_inv s -> once_inv s'.
Proof.
  intros [i Hst] Hinv. pose proof Hinv as (Hf & Hall & Hc).
  destruct (inv_step_Some _ _ _ Hst) as (inv & Hi & [[Hpc ->] | (r & Hpc & ->)]);
    pose proof (proj1 (Forall_lookup _ _) Hall i inv Hi) as [[o Ho] | Hs]; try congruence.
  - apply (once_inv_quiet _ _ inv); try done. cbn.
    by rewrite bool_decide_elem_of_app; fold (started inv); rewrite Hs.
  - destruct r as [e | r].
    + rewrite handler_act_error. destruct (is_entity_not_found e);
        apply (once_inv_quiet _ _ inv); try done; cbn;
        by rewrite ?bool_decide_elem_of_app; fold (started inv); rewrite Hs.
    + destruct (String.eqb_spec (State (Crawler r)) "RUNNING") as [Hrun | Hrun].
      { rewrite (handler_act_running _ _ Hrun).
        apply (once_inv_quiet _ _ inv); try done; cbn.
        by rewrite bool_decide_elem_of_app; fold (started inv); rewrite Hs. }
      destruct Hc as [[Hl _] | [Hl _]].
      * rewrite (handler_act_start (inv_world s inv) _ _ _ Hrun (svc_start_crawler_state _ _ Hf Hl)).
        apply (once_inv_start _ _ inv); try done. cbn.
        by rewrite bool_decide_elem_of_app, orb_true_iff; right.
      * rewrite (handler_act_start (inv_world s inv) _ _ _ Hrun (svc_start_crawler_state _ _ Hf Hl)).
        apply (once_inv_quiet _ _ inv); try done. cbn.
        by rewrite app_nil_r; fold (started inv).
Qed.

(** C8: from a READY crawler, whatever the interleaving of any number of
    invocations, at most one of them starts the crawler; one has started it
    exactly when the crawler is RUNNING. *)
Theorem at_most_one_start (svc : GlueSvc) n s' :
  gs_fault svc = None -> gs_crawlers svc !! crawler_name = Some READY ->
  rtc hstep (start_sys svc n) s' ->
  count_if started (sys_invs s') <= 1 /\
  (count_if started (sys_invs s') = 1 <->
   gs_crawlers (sys_glue s') !! crawler_name = Some RUNNING).
Proof.
  intros Hf Hl Hrtc.
  assert (Hinv : once_inv s').
  { refine (rtc_invariant hstep once_inv hstep_once _ _ Hrtc _).
    split; [done|]. split; [apply Forall_replicate; by right|].
    left. split; [done|]. unfold start_sys; cbn [sys_invs]. by rewrite count_if_replicate. }
  destruct Hinv as (_ & _ & [[Hr Hc] | [Hr Hc]]); rewrite Hc, Hr; split; try lia;
    split; congruence || lia.
Qed.

(** ** The crawler's existence is kept by every step *)

Definition crawler_present (svc : GlueSvc) : Prop :=
  gs_fault svc = None /\ is_Some (gs_crawlers svc !! crawler_name).

Lemma svc_set_state_present (svc : GlueSvc) m st :
  crawler_present svc -> crawler_present (svc_set_state svc m st).
Proof.
  intros [Hf [st0 Hl]]. split; [done|]. rewrite svc_set_state_lookup.
  case_decide; by eexists.
Qed.

Lemma svc_crawler_progress_present (svc : GlueSvc) m :
  crawler_present svc -> crawler_present (svc_crawler_progress svc m).
Proof.
  intros Hp. unfold svc_crawler_progress.
  destruct (gs_crawlers svc !! m) as [[]|]; auto using svc_set_state_present.
Qed.

(** ** The check-then-act race *)

Definition ready_svc : GlueSvc := {| gs_crawlers := {[crawler_name := READY]}; gs_fault := None |}.

(** C9: two invocations on a READY crawler: if both query before either
    acts, both see READY, both send a start command, and the second start
    is rejected with CrawlerRunningException, which propagates: that
    invocation fails.  Run one after the other, both succeed. *)
Theorem check_then_act_race :
  (exists s', rtc hstep (start_sys ready_svc 2) s' /\
     map inv_pc (sys_invs s') =
       [Finished (Returned handler_response); Finished (Raised CrawlerRunningException)] /\
     count_if is_start_call (sys_calls s') = 2) /\
  (exists s', rtc hstep (start_sys ready_svc 2) s' /\
     map inv_pc (sys_invs s') =
       [Finished (Returned handler_response); Finished (Returned handler_response)] /\
     count_if is_start_call (sys_calls s') = 1).
Proof.
  split; eexists; split.
  - eapply rtc_l; [exists 0; reflexivity|]. eapply rtc_l; [exists 1; reflexivity|].
    eapply rtc_l; [exists 0; reflexivity|]. eapply rtc_l; [exists 1; reflexivity|].
    apply rtc_refl.
  - vm_compute. split; reflexivity.
  - eapply rtc_l; [exists 0; reflexivity|]. eapply rtc_l; [exists 0; reflexivity|].
    eapply rtc_l; [exists 1; reflexivity|]. eapply rtc_l; [exists 1; reflexivity|].
    apply rtc_refl.
  - vm_compute. split; reflexivity.
Qed.

(** ** A round-robin scheduler

    [run_schedule] steps the first invocation that has a step left; it is
    used to reach concrete states in the witnesses. *)

(** Steps an invocation still has to take. *)
Definition pc_weight (inv : Invocation) : nat :=
  match inv_pc inv with AtQuery => 2 | AtAct _ => 1 | Finished _ => 0 end.

Definition pending_steps (s : Sys) : nat := sum_by pc_weight (sys_invs s).

Lemma hstep_pending s s' : hstep s s' -> pending_steps s' + 1 = pending_steps s.
Proof.
  intros [i Hst]. unfold pending_steps.
  destruct (inv_step_Some _ _ _ Hst) as (inv & Hi & [[Hpc ->] | (r & Hpc & ->)]);
    unfold commit; cbn [sys_invs];
    match goal with
    | |- sum_by _ (<[i:=?x]> _) + _ = _ =>
        pose proof (sum_by_insert pc_weight _ i x _ Hi) as Hn;
        assert (Hw : pc_weight x + 1 = pc_weight inv)
          by (unfold pc_weight; rewrite Hpc; reflexivity)
    end; lia.
Qed.

(** A scheduler: always step the first invocation that has not finished. *)
Fixpoint first_pending (invs : list Invocation) : option nat :=
  match invs with
  | [] => None
  | inv :: rest => if decide (pc_weight inv = 0) then S <$> first_pending rest else Some 0
  end.

Fixpoint run_schedule (fuel : nat) (s : Sys) : Sys :=
  match fuel with
  | 0 => s
  | S fuel' =>
      match first_pending (sys_invs s) with
      | None => s
      | Some i => match inv_step s i with Some s' => run_schedule fuel' s' | None => s end
      end
  end.

Lemma pc_weight_zero inv : pc_weight inv = 0 <-> exists o, inv_pc inv = Finished o.
Proof.
  unfold pc_weight. destruct (inv_pc inv); split; intros H;
    try discriminate H; try (destruct H; discriminate); eauto.
Qed.

Lemma first_pending_Some invs i :
  first_pending invs = Some i -> exists inv, invs !! i = Some inv /\ pc_weight inv <> 0.
Proof.
  revert i. induction invs as [|inv invs IH]; intros i; cbn; [done|].
  case_decide as Hw.
  - destruct (first_pending invs) as [j|] eqn:Hj; [|done]. intros [= <-]. by apply IH.
  - intros [= <-]. by exists inv.
Qed.

Lemma first_pending_None invs : first_pending invs = None -> sum_by pc_weight invs = 0.
Proof.
  induction invs as [|inv invs IH]; [done|]. cbn [first_pending].
  case_decide as Hw; [|done]. destruct (first_pending invs); [done|].
  intros _. by rewrite sum_by_cons, Hw, IH.
Qed.

Lemma inv_step_enabled s i inv :
  sys_invs s !! i = Some inv -> pc_weight inv <> 0 -> exists s', inv_step s i = Some s'.
Proof.
  intros Hi Hw. destruct (inv_pc inv) as [|r|o] eqn:Hpc.
  - eexists. exact (inv_step_query _ _ _ Hi Hpc).
  - eexists. exact (inv_step_act _ _ _ _ Hi Hpc).
  - exfalso. apply Hw, pc_weight_zero. by eexists.
Qed.

(** Each round of the scheduler takes one step while any invocation is
    pending; with fuel at least the pending steps, all have finished. *)
Lemma run_schedule_spec fuel s :
  rtc hstep s (run_schedule fuel s) /\
  pending_steps (run_schedule fuel s) = pending_steps s - fuel.
Proof.
  revert s. induction fuel as [|fuel IH]; intros s; cbn [run_schedule].
  { split; [done | lia]. }
  destruct (first_pending (sys_invs s)) as [i|] eqn:Hf.
  - destruct (first_pending_Some _ _ Hf) as (inv & Hi & Hw).
    destruct (inv_step_enabled _ _ _ Hi Hw) as [s' Hs']. rewrite Hs'.
    assert (Hp : pending_steps s' + 1 = pending_steps s) by (apply hstep_pending; by exists i).
    destruct (IH s') as [Hr Hn]. split; [eapply rtc_l; [by exists i | done] | lia].
  - pose proof (first_pending_None _ Hf). unfold pending_steps. split; [done | lia].
Qed.

(** ** The system always settles *)

(** ** Successful starts across the crawler's runs *)

(** One step of crawler [m]'s own run, as [step_crawler] takes it. *)
Definition progress_step (s : Sys) (m : string) : Sys :=
  {| sys_glue := svc_crawler_progress (sys_glue s) m; sys_calls := sys_calls s;
     sys_invs := sys_invs s |}.

(** A run of the system, indexed by the number of the crawlers' own
    steps it takes. *)
Inductive runs : nat -> Sys -> Sys -> Prop :=
  | runs_refl s : runs 0 s s
  | runs_inv k s1 s2 s3 : hstep s1 s2 -> runs k s2 s3 -> runs k s1 s3
  | runs_crawler k s1 m s3 : runs k (progress_step s1 m) s3 -> runs (S k) s1 s3.

(** How many steps of its own run the crawler is from READY, counted
    down: READY 2, STOPPING 1, RUNNING 0. *)
Definition credit (svc : GlueSvc) : nat :=
  match gs_crawlers svc !! crawler_name with Some READY => 2 | Some STOPPING => 1 | _ => 0 end.

Definition restart_inv (s : Sys) : Prop :=
  gs_fault (sys_glue s) = None /\ is_Some (gs_crawlers (sys_glue s) !! crawler_name) /\
  Forall once_view (sys_invs s).

(** Two per successful start, plus the crawler's credit. *)
Definition potential (s : Sys) : nat := 2 * count_if started (sys_invs s) + credit (sys_glue s).

Lemma runs_rtc k s s' : runs k s s' -> rtc step s s'.
Proof.
  induction 1 as [s | k s1 s2 s3 Hh _ IH | k s1 m s3 _ IH];
    [done | eapply rtc_l; [by apply step_invocation | done] |].
  eapply rtc_l; [apply (step_crawler s1 m) | exact IH].
Qed.

Lemma rtc_runs s s' : rtc step s s' -> exists k, runs k s s'.
Proof.
  induction 1 as [s|s1 s2 s3 Hst _ [k IH]]; [exists 0; constructor|].
  destruct Hst as [s1 s2 Hh | s1 m]; [exists k; by eapply runs_inv | exists (S k); by apply (runs_crawler k s1 m)].
Qed.

Lemma credit_progress (svc : GlueSvc) m : credit (svc_crawler_progress svc m) <= credit svc + 1.
Proof.
  unfold credit, svc_crawler_progress.
  destruct (gs_crawlers svc !! m) as [[]|] eqn:Hm; try lia;
    rewrite svc_set_state_lookup; case_decide; subst; rewrite ?Hm; lia.
Qed.

Lemma progress_restart s m :
  restart_inv s -> restart_inv (progress_step s m) /\ potential (progress_step s m) <= potential s + 1.
Proof.
  intros (Hf & Hp & Hall). pose proof (credit_progress (sys_glue s) m).
  destruct (svc_crawler_progress_present (sys_glue s) m (conj Hf Hp)) as [Hf' Hp'].
  split; [done|]. unfold potential, progress_step; cbn [sys_invs sys_glue]. lia.
Qed.

(** An invocation's step written back: how the count of starts moves. *)
Lemma commit_started s i inv w pc :
  sys_invs s !! i = Some inv -> started inv = false ->
  count_if started (sys_invs (commit s i w pc)) =
    count_if started (sys_invs s) + (if bool_decide (started_line ∈ w_stdout w) then 1 else 0).
Proof.
  intros Hi Hs. unfold commit; cbn [sys_invs].
  pose proof (count_if_insert started _ i {| inv_stdout := w_stdout w; inv_pc := pc |} _ Hi) as Hn.
  change (started {| inv_stdout := w_stdout w; inv_pc := pc |})
    with (bool_decide (started_line ∈ w_stdout w)) in Hn.
  rewrite Hs in Hn. cbv beta iota in Hn. lia.
Qed.

(** Writing back an invocation's step keeps the invariant, and keeps
    the potential when a new start line comes with the credit it costs. *)
Lemma commit_restart s i inv w pc (b : bool) :
  sys_invs s !! i = Some inv -> started inv = false -> restart_inv s ->
  gs_fault (w_glue w) = None -> is_Some (gs_crawlers (w_glue w) !! crawler_name) ->
  once_view {| inv_stdout := w_stdout w; inv_pc := pc |} ->
  bool_decide (started_line ∈ w_stdout w) = b ->
  credit (w_glue w) + (if b then 2 else 0) <= credit (sys_glue s) ->
  restart_inv (commit s i w pc) /\ potential (commit s i w pc) <= potential s.
Proof.
  intros Hi Hs (_ & _ & Hall) Hf Hp Hv Hb Hc. split.
  - split; [done|]. split; [done|]. by apply Forall_insert.
  - unfold potential. rewrite (commit_started _ _ inv), Hb by done.
    change (sys_glue (commit s i w pc)) with (w_glue w). destruct b; lia.
Qed.

(** The side conditions of [commit_restart] that hold by computation:
    the service kept, a finished view, no start line among the new lines,
    the credit kept. *)
Ltac restart_side st inv Hs :=
  try done; try (by exists st); try (by left; eexists);
  try (cbn [fst w_stdout after inv_world]; rewrite bool_decide_elem_of_app; fold (started inv);
       rewrite Hs; reflexivity);
  try (cbn [fst w_stdout inv_world]; fold (started inv); rewrite Hs; reflexivity);
  try (cbn; lia).

(** A step of an invocation never raises the potential: a start that
    succeeds turns a READY crawler (credit 2) into a RUNNING one
    (credit 0). *)
Lemma hstep_restart s s' : hstep s s' -> restart_inv s -> restart_inv s' /\ potential s' <= potential s.
Proof.
  intros [i Hst] Hinv. pose proof Hinv as (Hf & [st Hl] & Hall).
  destruct (inv_step_Some _ _ _ Hst) as (inv & Hi & [[Hpc ->] | (r & Hpc & ->)]);
    pose proof (proj1 (Forall_lookup _ _) Hall i inv Hi) as [[o Ho] | Hs]; try congruence.
  - apply (commit_restart _ _ inv _ _ false); restart_side st inv Hs.
    right. change (bool_decide (started_line ∈ inv_stdout inv ++ ["lambda1 invoked - cdk"]) = false).
    rewrite bool_decide_elem_of_app. fold (started inv). by rewrite Hs.
  - destruct r as [e | r].
    + rewrite handler_act_error.
      destruct (is_entity_not_found e); apply (commit_restart _ _ inv _ _ false); restart_side st inv Hs.
    + destruct (String.eqb_spec (State (Crawler r)) "RUNNING") as [Hrun | Hrun].
      { rewrite (handler_act_running _ _ Hrun).
        apply (commit_restart _ _ inv _ _ false); restart_side st inv Hs. }
      pose proof (svc_start_crawler_state _ _ Hf Hl) as Hstart.
      destruct (decide (st = READY)) as [-> | Hne];
        rewrite (handler_act_start (inv_world s inv) _ _ _ Hrun Hstart).
      * apply (commit_restart _ _ inv _ _ true); restart_side st inv Hs.
        -- exists RUNNING. cbn. by rewrite lookup_insert_eq.
        -- unfold credit. cbn [fst w_glue after gs_crawlers svc_set_state]. rewrite lookup_insert_eq, Hl. lia.
      * apply (commit_restart _ _ inv _ _ false); restart_side st inv Hs.
        cbn [is_entity_not_found fst w_stdout after inv_world]. rewrite app_nil_r. fold (started inv).
        by rewrite Hs.
Qed.

Lemma runs_potential k s s' :
  runs k s s' -> restart_inv s -> restart_inv s' /\ potential s' <= potential s + k.
Proof.
  induction 1 as [s | k s1 s2 s3 Hst _ IH | k s1 m s3 _ IH]; intros Hinv; [split; [done | lia] | |].
  - destruct (hstep_restart _ _ Hst Hinv) as [H2 Hp2]. destruct (IH H2). split; [done | lia].
  - destruct (progress_restart s1 m Hinv) as [H2 Hp2]. destruct (IH H2). split; [done | lia].
Qed.

(** A schedule: which invocation steps, or which crawler takes a step
    of its own run.  [run_labels] runs it, and fails when it names an
    invocation that cannot step. *)
Inductive Label := LInv (i : nat) | LCrawler (m : string).

Definition is_crawler_label (l : Label) : bool := match l with LCrawler _ => true | _ => false end.

Fixpoint run_labels (ls : list Label) (s : Sys) : option Sys :=
  match ls with
  | [] => Some s
  | LInv i :: ls' => s' ← inv_step s i; run_labels ls' s'
  | LCrawler m :: ls' => run_labels ls' (progress_step s m)
  end.

Lemma run_labels_runs ls s s' :
  run_labels ls s = Some s' -> runs (count_if is_crawler_label ls) s s'.
Proof.
  revert s. induction ls as [|[i|m] ls IH]; intros s Hr; cbn [run_labels] in Hr.
  - injection Hr as <-. constructor.
  - destruct (inv_step s i) as [s1|] eqn:Hs; cbn in Hr; [|discriminate].
    eapply runs_inv; [by exists i | exact (IH _ Hr)].
  - change (count_if is_crawler_label (LCrawler m :: ls)) with (S (count_if is_crawler_label ls)).
    apply (runs_crawler _ _ m). exact (IH _ Hr).
Qed.

(** C24: across the crawler's own runs, whatever the interleaving: from
    a crawler that exists, after a run in which the crawlers took [k]
    steps of their own, twice the number of invocations that started the
    crawler, plus the crawler's credit (READY 2, STOPPING 1, RUNNING 0),
    is at most the initial credit plus [k].  A new start needs the
    crawler's run to have ended (RUNNING -> STOPPING -> READY, two steps):
    from READY, at most [1 + k/2] invocations start it. *)
Theorem starts_bounded_by_runs (svc : GlueSvc) n k s' :
  gs_fault svc = None -> is_Some (gs_crawlers svc !! crawler_name) ->
  runs k (start_sys svc n) s' ->
  2 * count_if started (sys_invs s') + credit (sys_glue s') <= credit svc + k /\
  2 * count_if started (sys_invs s') <= 2 + k.
Proof.
  intros Hf Hl Hr.
  assert (H0 : restart_inv (start_sys svc n))
    by (split; [done|]; split; [done|]; apply Forall_replicate; by right).
  destruct (runs_potential _ _ _ Hr H0) as [_ Hp]. unfold potential in Hp.
  unfold start_sys in Hp; cbn [sys_invs sys_glue] in Hp. rewrite count_if_replicate in Hp.
  change (started fresh_invocation) with false in Hp. cbv beta iota in Hp.
  assert (credit svc <= 2) by (unfold credit; repeat case_match; lia). lia.
Qed.

(** ** Witnesses *)

Definition running_svc : GlueSvc :=
  {| gs_crawlers := {[crawler_name := RUNNING]}; gs_fault := None |}.

Lemma no_start_while_running_witness :
  gs_fault running_svc = None /\ gs_crawlers running_svc !! crawler_name = Some RUNNING /\
  rtc hstep (start_sys running_svc 3) (run_schedule 6 (start_sys running_svc 3)) /\
  count_if is_start_call (sys_calls (run_schedule 6 (start_sys running_svc 3))) = 0 /\
  sys_glue (run_schedule 6 (start_sys running_svc 3)) = running_svc /\
  Forall (fun inv => forall o, inv_pc inv = Finished o -> o = Returned handler_response)
    (sys_invs (run_schedule 6 (start_sys running_svc 3))).
Proof.
  assert (Hr := proj1 (run_schedule_spec 6 (start_sys running_svc 3))).
  split; [reflexivity|]. split; [vm_compute; reflexivity|]. split; [exact Hr|].
  apply (no_start_while_running running_svc 3); [reflexivity | vm_compute; reflexivity | exact Hr].
Defined.

Lemma at_most_one_start_witness :
  gs_fault ready_svc = None /\ gs_crawlers ready_svc !! crawler_name = Some READY /\
  rtc hstep (start_sys ready_svc 3) (run_schedule 6 (start_sys ready_svc 3)) /\
  count_if started (sys_invs (run_schedule 6 (start_sys ready_svc 3))) <= 1 /\
  (count_if started (sys_invs (run_schedule 6 (start_sys ready_svc 3))) = 1 <->
   gs_crawlers (sys_glue (run_schedule 6 (start_sys ready_svc 3))) !! crawler_name = Some RUNNING).
Proof.
  assert (Hr := proj1 (run_schedule_spec 6 (start_sys ready_svc 3))).
  split; [reflexivity|]. split; [vm_compute; reflexivity|]. split; [exact Hr|].
  apply (at_most_one_start ready_svc 3); [reflexivity | vm_compute; reflexivity | exact Hr].
Defined.

(** One invocation starts the READY crawler, the crawler's run ends (two
    steps), a second invocation starts it again: the bound is reached. *)
Definition restart_schedule : list Label :=
  [LInv 0; LInv 0; LCrawler crawler_name; LCrawler crawler_name; LInv 1; LInv 1].

Definition restart_state : Sys :=
  from_option id (start_sys ready_svc 2) (run_labels restart_schedule (start_sys ready_svc 2)).

Lemma starts_bounded_by_runs_witness :
  runs 2 (start_sys ready_svc 2) restart_state /\ count_if started (sys_invs restart_state) = 2 /\
  2 * count_if started (sys_invs restart_state) + credit (sys_glue restart_state) <= credit ready_svc + 2 /\
  2 * count_if started (sys_invs restart_state) <= 2 + 2.
Proof.
  assert (Hr : runs 2 (start_sys ready_svc 2) restart_state)
    by (apply (run_labels_runs restart_schedule); vm_compute; reflexivity).
  split; [exact Hr|]. split; [vm_compute; reflexivity|].
  apply (starts_bounded_by_runs ready_svc 2 2); [reflexivity | by eexists | exact Hr].
Defined.
