(* ===== verification/Stack.v ===== *)
(** * The resources of FirstcdkStack (src/lambda/commenstack.py)

    [FirstcdkStack.__init__] creates fifteen constructs in order (lines
    77-233).  Each is a definition here, a record with the props the code
    passes, and the stack is the list of them in the order of the code.
    Values that CDK only knows at deployment are tokens ([Tok]): the account
    and region ([cdk.Aws.ACCOUNT_ID], [cdk.Aws.REGION]) and attributes of
    other constructs ([bucket.bucket_name], [role.role_arn],
    [queue.queue_arn]), referring to the construct by its logical id.
    Attributes of L1 ([Cfn...]) constructs that return a prop
    ([glue_workflow.name], [glue_job.name], [glue_database.catalog_id]) are
    the prop's value itself.  What the tokens resolve to and what the
    resources do together is in [Pipeline]. *)

From S2P Require Import Prelude.

(** ** Tokens *)

Inductive Tok :=
  | Lit (s : string)
  | AccountId
  | Region
  | BucketName (bucket_id : string)
  | RoleArn (role_id : string)
  | QueueArn (queue_id : string).

(** A string that may contain tokens, as an f-string of the code. *)
Definition CStr := list Tok.

(** ** Construct props *)

Inductive RemovalPolicy := DESTROY | RETAIN.
Inductive StorageClass := GLACIER | DEEP_ARCHIVE | INFREQUENT_ACCESS.
Inductive EventType := OBJECT_CREATED | OBJECT_REMOVED.
Inductive Effect := ALLOW | DENY.

Record Transition := { storage_class : StorageClass; transition_after_days : Z }.
Record LifecycleRule := { transitions : list Transition }.

Record Bucket := {
  b_id : string;
  b_bucket_name : option CStr;
  b_auto_delete_objects : bool;
  b_removal_policy : RemovalPolicy;
  b_event_bridge_enabled : bool;
  b_lifecycle_rules : list LifecycleRule
}.

(** [bucket.add_event_notification(event, s3n.SqsDestination(queue))]. *)
Record BucketNotification := {
  n_bucket : string;
  n_event : EventType;
  n_queue : string
}.

Record BucketDeployment := {
  d_id : string;
  d_sources : list string;
  d_destination_bucket : string;
  d_destination_key_prefix : option string
}.

Record Queue := { q_id : string; q_visibility_timeout : option Z }.

Record PolicyStatement := {
  ps_effect : Effect;
  ps_actions : list string;
  ps_resources : list string
}.

Record Role := {
  r_id : string;
  r_role_name : string;
  r_description : string;
  r_assumed_by : string;
  r_inline_policies : list (string * list PolicyStatement)
}.

Record GlueDatabase := {
  db_id : string;
  db_catalog_id : CStr;
  db_name : string;
  db_description : string
}.

Record LFPermissions := {
  lf_id : string;
  lf_principal : CStr;
  lf_catalog_id : CStr;
  lf_database_name : string;
  lf_permissions : list string
}.

Record S3Target := { st_path : CStr; st_event_queue_arn : option CStr }.

Record GlueCrawler := {
  c_id : string;
  c_name : string;
  c_role : CStr;
  c_database_name : string;
  c_s3_targets : list S3Target;
  c_recrawl_behavior : string
}.

Record GlueJob := {
  j_id : string;
  j_name : string;
  j_command_name : string;
  j_python_version : string;
  j_script_location : CStr;
  j_role : CStr;
  j_glue_version : string;
  j_timeout : Z
}.

Record GlueWorkflow := { wf_id : string; wf_name : string; wf_description : string }.

Record TriggerAction := {
  ta_crawler_name : option string;
  ta_job_name : option string;
  ta_notify_delay_after : Z;
  ta_timeout : Z
}.

Record Condition := {
  cond_crawler_name : string;
  cond_logical_operator : string;
  cond_crawl_state : string
}.

Record GlueTrigger := {
  t_id : string;
  t_name : string;
  t_actions : list TriggerAction;
  t_type : string;
  t_start_on_creation : bool;
  t_workflow_name : option string;
  t_predicate : option (list Condition)
}.

(** An EventBridge event pattern: at a leaf, the values a field may take;
    inside, the fields of an object. *)
Inductive Pattern :=
  | PValues (vs : list CStr)
  | PFields (fs : list (string * Pattern)).

Record RuleTarget := { rt_arn : CStr; rt_role_arn : CStr; rt_id : CStr }.

Record EventRule := {
  er_id : string;
  er_name : string;
  er_role_arn : CStr;
  er_targets : list RuleTarget;
  er_event_pattern : Pattern
}.

Inductive Construct :=
  | CBucket (b : Bucket)
  | CNotification (n : BucketNotification)
  | CDeployment (d : BucketDeployment)
  | CQueue (q : Queue)
  | CRole (r : Role)
  | CDatabase (d : GlueDatabase)
  | CPermissions (p : LFPermissions)
  | CCrawler (c : GlueCrawler)
  | CJob (j : GlueJob)
  | CWorkflow (w : GlueWorkflow)
  | CTrigger (t : GlueTrigger)
  | CRule (r : EventRule).

Definition Stack := list Construct.

(** ** The constructs, in the order of the code *)

(** Lines 77-85. *)
Definition raw_bucket : Bucket := {|
  b_id := "raw_data";
  b_bucket_name := Some [Lit "raw-cdk-bucket-"; AccountId];
  b_auto_delete_objects := false;
  b_removal_policy := DESTROY;
  b_event_bridge_enabled := true;
  b_lifecycle_rules :=
    [{| transitions := [{| storage_class := GLACIER; transition_after_days := 7 |}] |}]
|}.

(** Lines 102-105. *)
Definition output_bucket : Bucket := {|
  b_id := "processed_cdk_bucket";
  b_bucket_name := Some [Lit "processed-cdk-bucket-"; AccountId];
  b_auto_delete_objects := true;
  b_removal_policy := DESTROY;
  b_event_bridge_enabled := false;
  b_lifecycle_rules := []
|}.

(** Lines 107-110. *)
Definition deployment_scripts : BucketDeployment := {|
  d_id := "deployment_scripts";
  d_sources := ["./assets/"];
  d_destination_bucket := b_id output_bucket;
  d_destination_key_prefix := Some "scripts/"
|}.

(** Line 115. *)
Definition glue_queue : Queue := {| q_id := "glue_queue"; q_visibility_timeout := None |}.

(** Line 116. *)
Definition raw_bucket_notification : BucketNotification := {|
  n_bucket := b_id raw_bucket;
  n_event := OBJECT_CREATED;
  n_queue := q_id glue_queue
|}.

(** Lines 118-126. *)
Definition glue_role : Role := {|
  r_id := "glue_role";
  r_role_name := "cdkGlueRole";
  r_description := "Role for Glue services to access S3";
  r_assumed_by := "glue.amazonaws.com";
  r_inline_policies :=
    [("glue_policy",
      [{| ps_effect := ALLOW;
          ps_actions := ["s3:*"; "glue:*"; "iam:*"; "logs:*"; "cloudwatch:*"; "sqs:*";
                         "cloudtrail:*"];
          ps_resources := ["*"] |}])]
|}.

(** Lines 128-132. *)
Definition glue_database : GlueDatabase := {|
  db_id := "glue-database";
  db_catalog_id := [AccountId];
  db_name := "cdk-database";
  db_description := "Database to store csv data."
|}.

(** Lines 137-144. *)
Definition lakeformation_permission : LFPermissions := {|
  lf_id := "lakeformation_permission";
  lf_principal := [RoleArn (r_id glue_role)];
  lf_catalog_id := db_catalog_id glue_database;
  lf_database_name := "cdk-database";
  lf_permissions := ["ALL"]
|}.

(** Lines 146-155. *)
Definition glue_crawler : GlueCrawler := {|
  c_id := "glue_crawler";
  c_name := "cdk_crawler";
  c_role := [RoleArn (r_id glue_role)];
  c_database_name := "cdk-database";
  c_s3_targets :=
    [{| st_path := [Lit "s3://"; BucketName (b_id raw_bucket); Lit "/csv/"];
        st_event_queue_arn := Some [QueueArn (q_id glue_queue)] |}];
  c_recrawl_behavior := "CRAWL_EVENT_MODE"
|}.

(** Lines 157-165. *)
Definition glue_job : GlueJob := {|
  j_id := "glue_job";
  j_name := "glue_job";
  j_command_name := "pythonshell";
  j_python_version := "3.12";
  j_script_location := [Lit "s3://"; BucketName (b_id output_bucket); Lit "/glue_job.py"];
  j_role := [RoleArn (r_id glue_role)];
  j_glue_version := "4.0";
  j_timeout := 3
|}.

(** Lines 183-185. *)
Definition glue_workflow : GlueWorkflow := {|
  wf_id := "glue_workflow";
  wf_name := "glue_workflow";
  wf_description := "Workflow to process the rfm data."
|}.

(** Lines 187-194. *)
Definition glue_crawler_trigger : GlueTrigger := {|
  t_id := "glue_crawler_trigger";
  t_name := "glue_crawler_trigger";
  t_actions := [{| ta_crawler_name := Some "cdk_crawler"; ta_job_name := None;
                   ta_notify_delay_after := 3; ta_timeout := 3 |}];
  t_type := "EVENT";
  t_start_on_creation := false;
  t_workflow_name := Some (wf_name glue_workflow);
  t_predicate := None
|}.

(** Lines 196-209. *)
Definition glue_job_trigger : GlueTrigger := {|
  t_id := "glue_job_trigger";
  t_name := "glue_job_trigger";
  t_actions := [{| ta_crawler_name := None; ta_job_name := Some (j_name glue_job);
                   ta_notify_delay_after := 3; ta_timeout := 3 |}];
  t_type := "CONDITIONAL";
  t_start_on_creation := true;
  t_workflow_name := Some (wf_name glue_workflow);
  t_predicate := Some [{| cond_crawler_name := "glue_crawler";
                          cond_logical_operator := "EQUALS";
                          cond_crawl_state := "SUCCEEDED" |}]
|}.

(** Lines 212-220. *)
Definition rule_role : Role := {|
  r_id := "rule_role";
  r_role_name := "EventBridgeRole";
  r_description := "Role for EventBridge to trigger Glue workflows.";
  r_assumed_by := "events.amazonaws.com";
  r_inline_policies :=
    [("eventbridge_policy",
      [{| ps_effect := ALLOW; ps_actions := ["events:*"; "glue:*"]; ps_resources := ["*"] |}])]
|}.

(** Lines 222-233. *)
Definition rule_s3_glue : EventRule := {|
  er_id := "rule_s3_glue";
  er_name := "rule_s3_glue";
  er_role_arn := [RoleArn (r_id rule_role)];
  er_targets :=
    [{| rt_arn := [Lit "arn:aws:glue:"; Region; Lit ":"; AccountId; Lit ":workflow/glue_workflow"];
        rt_role_arn := [RoleArn (r_id rule_role)];
        rt_id := [AccountId] |}];
  er_event_pattern :=
    PFields [("detail-type", PValues [[Lit "Object Created"]]);
             ("detail", PFields [("bucket", PFields [("name", PValues [[BucketName (b_id raw_bucket)]])])]);
             ("source", PValues [[Lit "aws.s3"]])]
|}.

(** [FirstcdkStack.__init__] (lines 71-233): the constructs in order. *)
Definition FirstcdkStack : Stack := [
  CBucket raw_bucket;
  CBucket output_bucket;
  CDeployment deployment_scripts;
  CQueue glue_queue;
  CNotification raw_bucket_notification;
  CRole glue_role;
  CDatabase glue_database;
  CPermissions lakeformation_permission;
  CCrawler glue_crawler;
  CJob glue_job;
  CWorkflow glue_workflow;
  CTrigger glue_crawler_trigger;
  CTrigger glue_job_trigger;
  CRole rule_role;
  CRule rule_s3_glue
].

(** src/app.py, lines 7-10: the app holds one stack, ["FirstcdkStack"]. *)
Definition app_stacks : list (string * Stack) := [("FirstcdkStack", FirstcdkStack)].
