(* ===== verification/Pipeline.v ===== *)
(** * What the resources of the stack do together

    The stack's resources refer to one another by name (the triggers'
    crawler, job and workflow names, the crawler's database) and by tokens
    (bucket names, role and queue ARNs).  This file gives those references
    their meaning and checks what the code relies on:
    - [resolve]: the string a token-bearing value becomes in an account and
      region ([Env]);
    - [dangling_refs]: the references that name no resource of the stack;
    - [workflow_run]: a run of a Glue workflow: its EVENT triggers start
      their crawlers, and its activated CONDITIONAL triggers fire when every
      condition holds of the crawls' final states;
    - [deployed_keys]: the objects [BucketDeployment] uploads;
    - [s3_routes]: where an S3 event of a bucket is delivered, through the
      bucket's notifications and, for EventBridge-enabled buckets, through
      the rules whose pattern matches;
    - [role_allows]: whether a role's inline policies allow an action;
    - [valid_bucket_name]: S3's rules for a bucket name, and the names the
      code gives its buckets for every twelve-digit account id;
    - the handler against the Glue service the stack provisions.
    The semantics of the AWS services (ARN formats, EventBridge matching,
    workflow triggers, IAM wildcards) are written from their documentation:
    they are not code of the repository. *)

From S2P Require Import Prelude GlueApi Json Handler Stack.
From Stdlib Require Import Ascii.

(** ** The constructs of a stack, by kind *)

Definition buckets (st : Stack) : list Bucket :=
  omap (fun c => match c with CBucket b => Some b | _ => None end) st.
Definition notifications (st : Stack) : list BucketNotification :=
  omap (fun c => match c with CNotification n => Some n | _ => None end) st.
Definition deployments (st : Stack) : list BucketDeployment :=
  omap (fun c => match c with CDeployment d => Some d | _ => None end) st.
Definition queues (st : Stack) : list Queue :=
  omap (fun c => match c with CQueue q => Some q | _ => None end) st.
Definition roles (st : Stack) : list Role :=
  omap (fun c => match c with CRole r => Some r | _ => None end) st.
Definition databases (st : Stack) : list GlueDatabase :=
  omap (fun c => match c with CDatabase d => Some d | _ => None end) st.
Definition crawlers (st : Stack) : list GlueCrawler :=
  omap (fun c => match c with CCrawler c => Some c | _ => None end) st.
Definition jobs (st : Stack) : list GlueJob :=
  omap (fun c => match c with CJob j => Some j | _ => None end) st.
Definition workflows (st : Stack) : list GlueWorkflow :=
  omap (fun c => match c with CWorkflow w => Some w | _ => None end) st.
Definition triggers (st : Stack) : list GlueTrigger :=
  omap (fun c => match c with CTrigger t => Some t | _ => None end) st.
Definition rules (st : Stack) : list EventRule :=
  omap (fun c => match c with CRule r => Some r | _ => None end) st.

Definition find_by {A} (key : A -> string) (k : string) (l : list A) : option A :=
  head (List.filter (fun x => String.eqb (key x) k) l).

(** ** Tokens resolved *)

(** The account and region of the deployment, and the names CloudFormation
    generates for resources the code does not name. *)
Record Env := {
  env_account : string;
  env_region : string;
  env_physical : string -> string
}.

(** A value with no reference to another construct. *)
Definition resolve_plain (env : Env) (t : Tok) : option string :=
  match t with
  | Lit s => Some s
  | AccountId => Some (env_account env)
  | Region => Some (env_region env)
  | _ => None
  end.

Definition concat_opt (l : list (option string)) : option string :=
  foldr (fun o acc => s ← o; r ← acc; Some (s +:+ r)) (Some "") l.

Definition bucket_physical_name (env : Env) (b : Bucket) : option string :=
  match b_bucket_name b with
  | Some cs => concat_opt (map (resolve_plain env) cs)
  | None => Some (env_physical env (b_id b))
  end.

Definition resolve_tok (env : Env) (st : Stack) (t : Tok) : option string :=
  match t with
  | BucketName id => b ← find_by b_id id (buckets st); bucket_physical_name env b
  | RoleArn id =>
      r ← find_by r_id id (roles st);
      Some ("arn:aws:iam::" +:+ env_account env +:+ ":role/" +:+ r_role_name r)
  | QueueArn id =>
      q ← find_by q_id id (queues st);
      Some ("arn:aws:sqs:" +:+ env_region env +:+ ":" +:+ env_account env +:+ ":" +:+
            env_physical env (q_id q))
  | _ => resolve_plain env t
  end.

Definition resolve (env : Env) (st : Stack) (cs : CStr) : option string :=
  concat_opt (map (resolve_tok env st) cs).

(** ** References between constructs *)

(** A reference made by the construct named [from]. *)
Inductive Ref :=
  | RefBucket (from id : string)
  | RefQueue (from id : string)
  | RefRole (from id : string)
  | RefDatabase (from name : string)
  | RefCrawler (from name : string)
  | RefJob (from name : string)
  | RefWorkflow (from name : string).

#[export] Instance Ref_eq_dec : EqDecision Ref.
Proof. solve_decision. Defined.

Definition tok_refs (from : string) (t : Tok) : list Ref :=
  match t with
  | BucketName id => [RefBucket from id]
  | RoleArn id => [RefRole from id]
  | QueueArn id => [RefQueue from id]
  | _ => []
  end.

Definition cstr_refs (from : string) (cs : CStr) : list Ref := flat_map (tok_refs from) cs.

Fixpoint pattern_refs (from : string) (p : Pattern) : list Ref :=
  match p with
  | PValues vs => flat_map (cstr_refs from) vs
  | PFields fs => flat_map (fun kp => pattern_refs from kp.2) fs
  end.

Definition construct_refs (c : Construct) : list Ref :=
  match c with
  | CBucket b => from_option (cstr_refs (b_id b)) [] (b_bucket_name b)
  | CNotification n => [RefBucket (n_bucket n) (n_bucket n); RefQueue (n_bucket n) (n_queue n)]
  | CDeployment d => [RefBucket (d_id d) (d_destination_bucket d)]
  | CQueue _ | CRole _ | CWorkflow _ => []
  | CDatabase d => cstr_refs (db_id d) (db_catalog_id d)
  | CPermissions p =>
      cstr_refs (lf_id p) (lf_principal p) ++ cstr_refs (lf_id p) (lf_catalog_id p) ++
      [RefDatabase (lf_id p) (lf_database_name p)]
  | CCrawler c =>
      cstr_refs (c_id c) (c_role c) ++ [RefDatabase (c_id c) (c_database_name c)] ++
      flat_map (fun t => cstr_refs (c_id c) (st_path t) ++
                         from_option (cstr_refs (c_id c)) [] (st_event_queue_arn t)) (c_s3_targets c)
  | CJob j => cstr_refs (j_id j) (j_script_location j) ++ cstr_refs (j_id j) (j_role j)
  | CTrigger t =>
      flat_map (fun a => from_option (fun n => [RefCrawler (t_id t) n]) [] (ta_crawler_name a) ++
                         from_option (fun n => [RefJob (t_id t) n]) [] (ta_job_name a)) (t_actions t) ++
      from_option (fun n => [RefWorkflow (t_id t) n]) [] (t_workflow_name t) ++
      from_option (map (fun c => RefCrawler (t_id t) (cond_crawler_name c))) [] (t_predicate t)
  | CRule r =>
      cstr_refs (er_id r) (er_role_arn r) ++
      flat_map (fun t => cstr_refs (er_id r) (rt_arn t) ++ cstr_refs (er_id r) (rt_role_arn t))
        (er_targets r) ++
      pattern_refs (er_id r) (er_event_pattern r)
  end.


Definition ref_ok (st : Stack) (r : Ref) : bool :=
  match r with
  | RefBucket _ id => name_in id (map b_id (buckets st))
  | RefQueue _ id => name_in id (map q_id (queues st))
  | RefRole _ id => name_in id (map r_id (roles st))
  | RefDatabase _ n => name_in n (map db_name (databases st))
  | RefCrawler _ n => name_in n (map c_name (crawlers st))
  | RefJob _ n => name_in n (map j_name (jobs st))
  | RefWorkflow _ n => name_in n (map wf_name (workflows st))
  end.

(** The references of the stack that name nothing it declares. *)
Definition dangling_refs (st : Stack) : list Ref :=
  List.filter (fun r => negb (ref_ok st r)) (flat_map construct_refs st).

(** ** A run of a Glue workflow *)

Definition triggers_of (st : Stack) (wf : string) : list GlueTrigger :=
  List.filter (fun t => bool_decide (t_workflow_name t = Some wf)) (triggers st).

Definition action_crawlers (t : GlueTrigger) : list string := omap ta_crawler_name (t_actions t).
Definition action_jobs (t : GlueTrigger) : list string := omap ta_job_name (t_actions t).

(** A condition [crawler EQUALS state] holds when that crawler ran in this
    run and ended in that state; [outcome] gives each crawl's final state. *)
Definition cond_holds (crawled : list string) (outcome : string -> string) (c : Condition) : bool :=
  String.eqb (cond_logical_operator c) "EQUALS" && name_in (cond_crawler_name c) crawled &&
  String.eqb (outcome (cond_crawler_name c)) (cond_crawl_state c).

(** An activated CONDITIONAL trigger fires when all its conditions hold. *)
Definition fires (crawled : list string) (outcome : string -> string) (t : GlueTrigger) : bool :=
  String.eqb (t_type t) "CONDITIONAL" && t_start_on_creation t &&
  from_option (forallb (cond_holds crawled outcome)) false (t_predicate t).

(** The crawlers the EVENT triggers start when the workflow is notified. *)
Definition event_crawlers (st : Stack) (wf : string) : list string :=
  flat_map action_crawlers (List.filter (fun t => String.eqb (t_type t) "EVENT") (triggers_of st wf)).

(** Crawlers started by fired triggers, until no new crawler starts (one
    round per trigger suffices). *)
Fixpoint crawl_closure (fuel : nat) (st : Stack) (wf : string) (outcome : string -> string)
    (crawled : list string) : list string :=
  match fuel with
  | 0 => crawled
  | S f =>
      let next := flat_map action_crawlers (List.filter (fires crawled outcome) (triggers_of st wf)) in
      crawl_closure f st wf outcome (crawled ++ List.filter (fun n => negb (name_in n crawled)) next)
  end.

(** A run notified by an event: the crawlers it starts and the jobs it
    starts. *)
Definition workflow_run (st : Stack) (wf : string) (outcome : string -> string) :
    list string * list string :=
  let crawled := crawl_closure (length (triggers st)) st wf outcome (event_crawlers st wf) in
  (crawled, flat_map action_jobs (List.filter (fires crawled outcome) (triggers_of st wf))).

(** ** Referential integrity *)

(** C12: the stack has exactly one reference that names nothing: the
    condition of [glue_job_trigger] waits on crawler ["glue_crawler"] (the
    crawler's logical id), while the crawler is named ["cdk_crawler"]. *)
Theorem stack_dangling_refs :
  dangling_refs FirstcdkStack = [RefCrawler "glue_job_trigger" "glue_crawler"].
Proof. vm_compute. reflexivity. Qed.

(** ** The workflow *)

(** C13: whatever the final state of each crawl, a run of
    ["glue_workflow"] starts the crawler ["cdk_crawler"] and never starts
    the job ["glue_job"]. *)
Theorem workflow_never_starts_job (outcome : string -> string) :
  workflow_run FirstcdkStack (wf_name glue_workflow) outcome = (["cdk_crawler"], []).
Proof. vm_compute. reflexivity. Qed.

(** The run is not empty by construction: had the condition named the
    crawler ["cdk_crawler"], a successful crawl would start the job. *)
Definition retarget_conditions (crawler : string) (t : GlueTrigger) : GlueTrigger :=
  {| t_id := t_id t; t_name := t_name t; t_actions := t_actions t; t_type := t_type t;
     t_start_on_creation := t_start_on_creation t; t_workflow_name := t_workflow_name t;
     t_predicate := map (fun c => {| cond_crawler_name := crawler;
                                     cond_logical_operator := cond_logical_operator c;
                                     cond_crawl_state := cond_crawl_state c |}) <$> t_predicate t |}.

Lemma workflow_run_retargeted :
  workflow_run (<[12 := CTrigger (retarget_conditions "cdk_crawler" glue_job_trigger)]> FirstcdkStack)
    (wf_name glue_workflow) (fun _ => "SUCCEEDED") = (["cdk_crawler"], ["glue_job"]).
Proof. vm_compute. reflexivity. Qed.

(** ** The script deployment *)

Definition s3_uri (bucket key : string) : string := "s3://" +:+ bucket +:+ "/" +:+ key.

(** The keys [BucketDeployment] writes for the asset's files. *)
Definition deployed_keys (d : BucketDeployment) (asset_files : list string) : list string :=
  map (fun f => from_option id "" (d_destination_key_prefix d) +:+ f) asset_files.

Lemma job_script_resolves (env : Env) :
  resolve env FirstcdkStack (j_script_location glue_job) =
    Some (s3_uri ("processed-cdk-bucket-" +:+ env_account env) "glue_job.py").
Proof.
  unfold resolve, s3_uri. cbn -[String.append find_by].
  assert (Hb : find_by b_id "processed_cdk_bucket" [raw_bucket; output_bucket] = Some output_bucket)
    by reflexivity.
  rewrite Hb. cbn -[String.append]. f_equal.
  rewrite !string_app_nil_r, !string_app_assoc. reflexivity.
Qed.

(** C14: in every account, and whatever files ./assets/ holds, the job's
    script location is none of the objects the deployment uploads: the
    deployment writes under [scripts/], the job reads [glue_job.py] at the
    bucket's root. *)
Theorem job_script_not_deployed (env : Env) (asset_files : list string) :
  Forall (fun key =>
            resolve env FirstcdkStack (j_script_location glue_job) <>
            Some (s3_uri ("processed-cdk-bucket-" +:+ env_account env) key))
         (deployed_keys deployment_scripts asset_files).
Proof.
  apply Forall_forall. intros key Hkey.
  apply list_elem_of_In, in_map_iff in Hkey as (f & <- & _).
  rewrite job_script_resolves. unfold s3_uri. intros [= Heq].
  do 2 apply string_app_inv_l in Heq. discriminate Heq.
Qed.

(** ** The handler in the deployed pipeline *)

(** The Glue service as the stack provisions it: its crawlers, by name, all
    in state [init]. *)
Definition provisioned_glue (st : Stack) (init : CrawlerState) : GlueSvc :=
  {| gs_crawlers := list_to_map (map (fun c => (c_name c, init)) (crawlers st));
     gs_fault := None |}.

(** C15: the crawler the handler names, ["test-lambda-crawler"], is not
    one the stack provisions, so against the provisioned service, in any
    crawler state, the handler never sends a start command: it takes the
    not-found branch and returns the success response. *)
Theorem deployed_handler_never_starts (init : CrawlerState) :
  lambda_handler tt tt (svc_world (gs_crawlers (provisioned_glue FirstcdkStack init)) None) =
    (after (svc_world (gs_crawlers (provisioned_glue FirstcdkStack init)) None)
       (provisioned_glue FirstcdkStack init)
       ["lambda1 invoked - cdk"; "Glue crawler test-lambda-crawler not found.";
        "lambda1 finished - cdk"] [GetCrawlerCall crawler_name], Returned handler_response).
Proof.
  rewrite (lambda_handler_get_error _ _ _ EntityNotFoundException); [reflexivity|].
  destruct init; vm_compute; reflexivity.
Qed.

(** ** Event routing *)

(** JSON values: events and template properties. *)
Inductive JVal :=
  | JStr (s : string)
  | JNum (z : Z)
  | JObj (fs : list (string * JVal)).

Definition jlookup (k : string) (fs : list (string * JVal)) : option JVal :=
  snd <$> find_by fst k fs.

(** The EventBridge event S3 emits for a new object. *)
Definition object_created_event (bucket key : string) : JVal :=
  JObj [("source", JStr "aws.s3"); ("detail-type", JStr "Object Created");
        ("detail", JObj [("bucket", JObj [("name", JStr bucket)]);
                         ("object", JObj [("key", JStr key)])])].

(** EventBridge matching: every field of the pattern is in the event, a
    leaf's value among the pattern's values. *)
Fixpoint pattern_matches (env : Env) (st : Stack) (p : Pattern) (v : JVal) {struct p} : bool :=
  match p, v with
  | PValues vs, JStr s => existsb (fun cs => bool_decide (resolve env st cs = Some s)) vs
  | PFields fs, JObj o =>
      (fix go (fs : list (string * Pattern)) : bool :=
         match fs with
         | [] => true
         | (k, p') :: rest =>
             match jlookup k o with
             | Some v' => pattern_matches env st p' v' && go rest
             | None => false
             end
         end) fs
  | _, _ => false
  end.

Inductive Destination := ToQueue (queue_id : string) | ToTarget (arn : string).

#[export] Instance Destination_eq_dec : EqDecision Destination.
Proof. solve_decision. Defined.

(** Where an S3 event of the bucket [bucket_id] goes: to the queues of the
    bucket's notifications for that event, and, when the bucket sends its
    events to EventBridge, to the targets of the rules that match. *)
Definition s3_routes (env : Env) (st : Stack) (bucket_id key : string) (ev : EventType) :
    list Destination :=
  map (fun n => ToQueue (n_queue n))
      (List.filter (fun n => String.eqb (n_bucket n) bucket_id &&
                        match n_event n, ev with
                        | OBJECT_CREATED, OBJECT_CREATED | OBJECT_REMOVED, OBJECT_REMOVED => true
                        | _, _ => false
                        end) (notifications st)) ++
  match find_by b_id bucket_id (buckets st), ev with
  | Some b, OBJECT_CREATED =>
      if b_event_bridge_enabled b then
        match bucket_physical_name env b with
        | Some name =>
            flat_map (fun r => if pattern_matches env st (er_event_pattern r)
                                    (object_created_event name key)
                               then omap (fun t => ToTarget <$> resolve env st (rt_arn t)) (er_targets r)
                               else []) (rules st)
        | None => []
        end
      else []
  | _, _ => []
  end.

(** The ARN of a Glue workflow. *)
Definition workflow_arn (env : Env) (w : GlueWorkflow) : string :=
  "arn:aws:glue:" +:+ env_region env +:+ ":" +:+ env_account env +:+ ":workflow/" +:+ wf_name w.

Lemma resolve_lit (env : Env) (st : Stack) (s : string) : resolve env st [Lit s] = Some s.
Proof. unfold resolve. cbn -[String.append]. by rewrite string_app_nil_r. Qed.

Lemma raw_bucket_name (env : Env) :
  bucket_physical_name env raw_bucket = Some ("raw-cdk-bucket-" +:+ env_account env).
Proof. cbn -[String.append]. by rewrite string_app_nil_r. Qed.

Lemma find_raw_bucket : find_by b_id (b_id raw_bucket) (buckets FirstcdkStack) = Some raw_bucket.
Proof. reflexivity. Qed.

Lemma resolve_raw_bucket_name (env : Env) :
  resolve env FirstcdkStack [BucketName (b_id raw_bucket)] =
    Some ("raw-cdk-bucket-" +:+ env_account env).
Proof.
  unfold resolve. cbn [map concat_opt foldr]. unfold resolve_tok. rewrite find_raw_bucket.
  cbn -[String.append bucket_physical_name]. rewrite raw_bucket_name. cbn -[String.append].
  by rewrite string_app_nil_r.
Qed.

Lemma resolve_rule_target (env : Env) :
  resolve env FirstcdkStack
    [Lit "arn:aws:glue:"; Region; Lit ":"; AccountId; Lit ":workflow/glue_workflow"] =
  Some (workflow_arn env glue_workflow).
Proof. unfold resolve, workflow_arn. cbn -[String.append]. f_equal; by rewrite ?string_app_nil_r. Qed.

(** C16: in every account and region, a new object in the raw bucket is
    delivered to [glue_queue] (which the crawler reads in event mode) and,
    through the EventBridge rule, to the workflow ["glue_workflow"]; a new
    object in the output bucket is delivered nowhere. *)
Theorem object_created_routes (env : Env) (key : string) :
  s3_routes env FirstcdkStack (b_id raw_bucket) key OBJECT_CREATED =
    [ToQueue (q_id glue_queue); ToTarget (workflow_arn env glue_workflow)] /\
  s3_routes env FirstcdkStack (b_id output_bucket) key OBJECT_CREATED = [].
Proof.
  split; [|reflexivity].
  unfold s3_routes. rewrite find_raw_bucket.
  cbn -[String.append bucket_physical_name resolve pattern_matches].
  rewrite raw_bucket_name. cbn -[String.append resolve].
  rewrite !resolve_lit, resolve_raw_bucket_name, resolve_rule_target.
  rewrite !bool_decide_true by done. reflexivity.
Qed.

(** ** Permissions *)

(** IAM wildcard matching: [*] matches any sequence of characters. *)
Fixpoint glob (p : string) (s : string) {struct p} : bool :=
  match p with
  | EmptyString => String.eqb s ""
  | String c p' =>
      if Ascii.eqb c "*"%char then
        (fix star (s : string) : bool :=
           glob p' s || match s with String _ s' => star s' | EmptyString => false end) s
      else match s with String a s' => Ascii.eqb c a && glob p' s' | EmptyString => false end
  end.

Definition statement_matches (e : Effect) (action resource : string) (s : PolicyStatement) : bool :=
  match ps_effect s, e with
  | ALLOW, ALLOW | DENY, DENY =>
      existsb (fun p => glob p action) (ps_actions s) &&
      existsb (fun p => glob p resource) (ps_resources s)
  | _, _ => false
  end.

(** A role's inline policies allow an action on a resource when an Allow
    statement matches and no Deny statement does. *)
Definition role_allows (r : Role) (action resource : string) : bool :=
  let stmts := flat_map snd (r_inline_policies r) in
  existsb (statement_matches ALLOW action resource) stmts &&
  negb (existsb (statement_matches DENY action resource) stmts).

Lemma glob_star (s : string) : glob "*" s = true.
Proof. induction s as [|c s IH]; [done|]. cbn in *. exact IH. Qed.

Lemma statement_matches_any_resource (e : Effect) (a r : string) (s : PolicyStatement) :
  ps_resources s = ["*"] -> statement_matches e a r s = statement_matches e a "*" s.
Proof. intros H. unfold statement_matches. rewrite H. cbn [existsb]. by rewrite !glob_star. Qed.

(** For policies whose statements all name the resource ["*"], what is
    allowed does not depend on the resource. *)
Lemma role_allows_any_resource (r : Role) (a res : string) :
  Forall (fun s => ps_resources s = ["*"]) (flat_map snd (r_inline_policies r)) ->
  role_allows r a res = role_allows r a "*".
Proof.
  intros Hall. unfold role_allows.
  assert (Hext : forall e, Forall (fun s => statement_matches e a res s = statement_matches e a "*" s)
                   (flat_map snd (r_inline_policies r))).
  { intros e. eapply Forall_impl; [exact Hall|]. intros s. apply statement_matches_any_resource. }
  by rewrite !(existsb_Forall_ext _ _ _ (Hext _)).
Qed.

(** C17: the EventBridge rule's role is trusted by events.amazonaws.com and
    may send [glue:notifyEvent] to the workflow, which the rule needs to
    start it; the Glue role is trusted by glue.amazonaws.com and may read
    the bucket's objects and the crawler's queue, and also perform any IAM
    action on any resource: more than its description, "Role for Glue
    services to access S3". *)
Theorem stack_role_permissions (env : Env) (resource : string) :
  r_assumed_by rule_role = "events.amazonaws.com" /\
  role_allows rule_role "glue:notifyEvent" (workflow_arn env glue_workflow) = true /\
  r_assumed_by glue_role = "glue.amazonaws.com" /\
  role_allows glue_role "s3:GetObject" resource = true /\
  role_allows glue_role "sqs:ReceiveMessage" resource = true /\
  role_allows glue_role "iam:CreateUser" resource = true.
Proof.
  repeat split; try reflexivity;
    (rewrite role_allows_any_resource by (repeat constructor)); vm_compute; reflexivity.
Qed.

(** ** Bucket names *)

(** S3's rules for a general purpose bucket name (S3 User Guide, "Bucket
    naming rules"): 3 to 63 characters of lowercase letters, digits, dots
    and hyphens; a letter or digit first and last; no two adjacent dots;
    not formatted as an IP address; none of the reserved prefixes and
    suffixes. *)
Definition bucket_char (c : ascii) : bool :=
  is_lower c || is_digit c || Ascii.eqb c "." || Ascii.eqb c "-".

Definition lower_alnum (c : ascii) : bool := is_lower c || is_digit c.

Fixpoint no_double_dot (s : string) : bool :=
  match s with
  | String a ((String b _) as r) => negb (Ascii.eqb a "." && Ascii.eqb b ".") && no_double_dot r
  | _ => true
  end.

(** The parts of a string between its dots. *)
Fixpoint split_dots (s : string) : list string :=
  match s with
  | EmptyString => [EmptyString]
  | String c s' =>
      if Ascii.eqb c "." then EmptyString :: split_dots s'
      else match split_dots s' with
           | p :: ps => String c p :: ps
           | [] => [String c EmptyString]
           end
  end.

Definition ip_formatted (s : string) : bool :=
  let ps := split_dots s in
  (length ps =? 4) &&
  forallb (fun p => (1 <=? String.length p) && (String.length p <=? 3) && str_forallb is_digit p) ps.

Definition str_suffix (suf s : string) : bool :=
  (String.length suf <=? String.length s) &&
  String.eqb (String.substring (String.length s - String.length suf) (String.length suf) s) suf.

Definition reserved_prefixes : list string := ["xn--"; "sthree-"; "amzn-s3-demo-"].
Definition reserved_suffixes : list string := ["-s3alias"; "--ol-s3"; ".mrap"; "--x-s3"; "--table-s3"].

Definition valid_bucket_name (s : string) : bool :=
  (3 <=? String.length s) && (String.length s <=? 63) && str_forallb bucket_char s &&
  match s with String c _ => lower_alnum c | EmptyString => false end &&
  match str_last s with Some c => lower_alnum c | None => false end &&
  no_double_dot s && negb (ip_formatted s) &&
  forallb (fun p => negb (String.prefix p s)) reserved_prefixes &&
  forallb (fun p => negb (str_suffix p s)) reserved_suffixes.

(** An AWS account id: twelve digits. *)
Definition account_id_ok (a : string) : bool := (String.length a =? 12) && str_forallb is_digit a.

Definition not_dot (c : ascii) : bool := negb (Ascii.eqb c ".").

(** What the literal part of a bucket name, followed by an account id,
    must satisfy: checked on the literal alone. *)
Definition bucket_prefix_ok (p : string) : bool :=
  str_forallb bucket_char p && str_forallb not_dot p &&
  match p with String c _ => lower_alnum c | EmptyString => false end &&
  (String.length p + 12 <=? 63) &&
  forallb (fun r => (String.length r <=? String.length p) && negb (String.prefix r p)) reserved_prefixes.

Lemma no_double_dot_nodots (s : string) : str_forallb not_dot s = true -> no_double_dot s = true.
Proof.
  induction s as [|a s IH]; [done|]. cbn [str_forallb]. intros [Ha Hs]%andb_true_iff.
  destruct s as [|b s]; [done|]. cbn [str_forallb] in Hs.
  change (negb (Ascii.eqb a "." && Ascii.eqb b ".") && no_double_dot (String b s) = true).
  unfold not_dot in Ha. apply negb_true_iff in Ha. rewrite Ha. cbn [negb andb]. by apply IH.
Qed.

Lemma no_double_dot_app (s t : string) :
  no_double_dot s = true -> str_forallb not_dot t = true -> no_double_dot (s ++ t) = true.
Proof.
  intros Hs Ht. induction s as [|a s IH]; [by apply no_double_dot_nodots|].
  rewrite string_app_cons. destruct s as [|b s].
  - destruct t as [|b t]; [done|]. cbn [str_forallb] in Ht. apply andb_true_iff in Ht as [Hb Ht].
    change (negb (Ascii.eqb a "." && Ascii.eqb b ".") && no_double_dot (String b t) = true).
    unfold not_dot in Hb. apply negb_true_iff in Hb. rewrite Hb, andb_false_r. cbn [negb andb].
    apply no_double_dot_nodots. cbn [str_forallb]. unfold not_dot at 1. by rewrite Hb, Ht.
  - change (negb (Ascii.eqb a "." && Ascii.eqb b ".") && no_double_dot (String b s) = true) in Hs.
    apply andb_true_iff in Hs as [Hab Hs].
    change (negb (Ascii.eqb a "." && Ascii.eqb b ".") && no_double_dot (String b s ++ t) = true).
    rewrite Hab. cbn [andb]. by apply IH.
Qed.

Lemma split_dots_nodots (s : string) : str_forallb not_dot s = true -> split_dots s = [s].
Proof.
  induction s as [|c s IH]; [done|]. cbn [str_forallb]. intros [Hc Hs]%andb_true_iff.
  unfold not_dot in Hc. apply negb_true_iff in Hc. cbn. by rewrite Hc, IH.
Qed.

Lemma digit_bucket_char (c : ascii) : is_digit c = true -> bucket_char c = true.
Proof. unfold bucket_char. intros ->. by rewrite orb_true_r. Qed.

Lemma digit_not_dot (c : ascii) : is_digit c = true -> not_dot c = true.
Proof. unfold is_digit, not_dot. destruct (Ascii.eqb_spec c "."); [by subst|done]. Qed.

(** A reserved suffix is never the end of an account id: each has a
    character that is not a digit and is at most twelve long. *)
Lemma reserved_suffixes_not_digits :
  forallb (fun suf => (String.length suf <=? 12) && negb (str_forallb is_digit suf)) reserved_suffixes = true.
Proof. reflexivity. Qed.

Lemma str_suffix_digits (p a suf : string) :
  account_id_ok a = true -> String.length suf <= 12 -> str_forallb is_digit suf = false ->
  str_suffix suf (p ++ a) = false.
Proof.
  intros (Hl%Nat.eqb_eq & Hd)%andb_true_iff Hk Hsuf. unfold str_suffix.
  rewrite string_length_app, Hl.
  replace (String.length p + 12 - String.length suf) with (String.length p + (12 - String.length suf))
    by lia.
  rewrite substring_app_r.
  destruct (String.eqb_spec (String.substring (12 - String.length suf) (String.length suf) a) suf)
    as [Heq|]; [|by rewrite andb_false_r].
  pose proof (str_forallb_substring is_digit a (12 - String.length suf) (String.length suf) Hd) as H.
  rewrite Heq in H. congruence.
Qed.

(** A literal that passes [bucket_prefix_ok], followed by an account id,
    is a valid bucket name. *)
Lemma valid_bucket_name_account (p a : string) :
  bucket_prefix_ok p = true -> account_id_ok a = true -> valid_bucket_name (p ++ a) = true.
Proof.
  intros Hp Ha. pose proof Ha as (Hl%Nat.eqb_eq & Hd)%andb_true_iff.
  unfold bucket_prefix_ok in Hp. repeat rewrite andb_true_iff in Hp.
  destruct Hp as ((((Hpc & Hpd) & Hfirst) & Hlen%Nat.leb_le) & Hpre).
  assert (Ha0 : a <> EmptyString) by (intros ->; discriminate Hl).
  assert (Hadot : str_forallb not_dot a = true) by exact (str_forallb_impl _ _ _ digit_not_dot Hd).
  unfold valid_bucket_name. rewrite string_length_app, Hl.
  rewrite str_forallb_app, Hpc, (str_forallb_impl _ _ _ digit_bucket_char Hd).
  rewrite str_last_app by done.
  destruct (str_last_forallb is_digit a Ha0 Hd) as (c & -> & Hc).
  rewrite (no_double_dot_app _ _ (no_double_dot_nodots _ Hpd) Hadot).
  unfold ip_formatted. rewrite split_dots_nodots by (rewrite str_forallb_app, Hpd; exact Hadot).
  assert (Hpre' : forallb (fun r => negb (String.prefix r (p ++ a))) reserved_prefixes = true).
  { apply forallb_forall. intros r Hr. rewrite forallb_forall in Hpre.
    apply Hpre, andb_true_iff in Hr as [Hr%Nat.leb_le Hn]. by rewrite prefix_app. }
  assert (Hsuf : forallb (fun r => negb (str_suffix r (p ++ a))) reserved_suffixes = true).
  { apply forallb_forall. intros r Hr. pose proof reserved_suffixes_not_digits as Hs.
    rewrite forallb_forall in Hs. apply Hs, andb_true_iff in Hr as [Hr%Nat.leb_le Hn%negb_true_iff].
    by rewrite str_suffix_digits. }
  rewrite Hpre', Hsuf. destruct p as [|c0 p]; [discriminate Hfirst|]. rewrite string_app_cons.
  change (lower_alnum c0 = true) in Hfirst. rewrite Hfirst.
  assert (Hlc : lower_alnum c = true) by (unfold lower_alnum; by rewrite Hc, orb_true_r).
  rewrite Hlc.
  assert ((3 <=? String.length (String c0 p) + 12) = true) as -> by (apply Nat.leb_le; lia).
  assert ((String.length (String c0 p) + 12 <=? 63) = true) as -> by (apply Nat.leb_le; lia).
  reflexivity.
Qed.

Lemma output_bucket_name (env : Env) :
  bucket_physical_name env output_bucket = Some ("processed-cdk-bucket-" +:+ env_account env).
Proof. cbn -[String.append]. by rewrite string_app_nil_r. Qed.

(** C23: for every account whose id is twelve digits, the names the code
    gives its two buckets (lines 78 and 103) are valid S3 bucket names, of
    27 and 33 characters, distinct from each other.  They depend on the
    account only: a deployment of the stack in another region of the same
    account asks for the same (global) bucket names, so the comment of
    line 78 ("can make the name unique") holds per account, not per
    deployment. *)
Theorem bucket_names_valid (env env' : Env) :
  account_id_ok (env_account env) = true -> env_account env' = env_account env ->
  exists raw out,
    bucket_physical_name env raw_bucket = Some raw /\
    bucket_physical_name env output_bucket = Some out /\
    valid_bucket_name raw = true /\ valid_bucket_name out = true /\
    String.length raw = 27 /\ String.length out = 33 /\ raw <> out /\
    bucket_physical_name env' raw_bucket = Some raw /\
    bucket_physical_name env' output_bucket = Some out.
Proof.
  intros Ha Henv. pose proof Ha as (Hl%Nat.eqb_eq & _)%andb_true_iff.
  exists ("raw-cdk-bucket-" +:+ env_account env), ("processed-cdk-bucket-" +:+ env_account env).
  rewrite !raw_bucket_name, !output_bucket_name, !string_length_app, Henv, Hl.
  repeat split; try reflexivity; try (apply valid_bucket_name_account; [reflexivity | exact Ha]).
  discriminate.
Qed.

(** Two deployments of one account, in two regions. *)
Definition env_us_east_1 : Env :=
  {| env_account := "123456789012"; env_region := "us-east-1"; env_physical := fun id => id |}.
Definition env_eu_west_1 : Env :=
  {| env_account := "123456789012"; env_region := "eu-west-1"; env_physical := fun id => id |}.

Lemma bucket_names_valid_witness :
  exists raw out,
    bucket_physical_name env_us_east_1 raw_bucket = Some raw /\
    bucket_physical_name env_us_east_1 output_bucket = Some out /\
    valid_bucket_name raw = true /\ valid_bucket_name out = true /\
    String.length raw = 27 /\ String.length out = 33 /\ raw <> out /\
    bucket_physical_name env_eu_west_1 raw_bucket = Some raw /\
    bucket_physical_name env_eu_west_1 output_bucket = Some out.
Proof. apply (bucket_names_valid env_us_east_1 env_eu_west_1); reflexivity. Defined.

(** ** Deleting the stack *)

(** What happens to a bucket when the stack is deleted (CloudFormation
    and S3 documentation): [RemovalPolicy.RETAIN] keeps it; [DESTROY]
    deletes it, which S3 refuses while the bucket holds objects
    ([BucketNotEmpty]) unless the auto-delete custom resource CDK adds for
    [auto_delete_objects=True] has emptied it first. *)
Inductive BucketFate := BucketRetained | BucketDeleted | BucketDeleteFailed (reason : string).

Definition bucket_on_delete (b : Bucket) (objects : list string) : BucketFate :=
  match b_removal_policy b with
  | RETAIN => BucketRetained
  | DESTROY =>
      if b_auto_delete_objects b then BucketDeleted
      else match objects with [] => BucketDeleted | _ :: _ => BucketDeleteFailed "BucketNotEmpty" end
  end.

(** Every bucket of the stack, given the objects each holds. *)
Definition stack_delete_buckets (st : Stack) (contents : string -> list string) :
    list (string * BucketFate) :=
  map (fun b => (b_id b, bucket_on_delete b (contents (b_id b)))) (buckets st).

Definition stack_delete_ok (st : Stack) (contents : string -> list string) : bool :=
  forallb (fun p => match p.2 with BucketDeleteFailed _ => false | _ => true end)
    (stack_delete_buckets st contents).

(** C26: deleting the stack deletes the output bucket whatever it holds
    (auto_delete_objects=True, line 104), but the raw bucket only when it
    is empty: its [auto_delete_objects] is commented out (line 79), so
    once an object has been uploaded (what the pipeline is for) the
    deletion fails with [BucketNotEmpty], against the comment of line 80
    ("auto deletion of buckets (with objects)"). *)
Theorem stack_delete_needs_empty_raw_bucket (contents : string -> list string) :
  stack_delete_buckets FirstcdkStack contents =
    [("raw_data", match contents "raw_data" with
                  | [] => BucketDeleted
                  | _ :: _ => BucketDeleteFailed "BucketNotEmpty"
                  end);
     ("processed_cdk_bucket", BucketDeleted)] /\
  (stack_delete_ok FirstcdkStack contents = true <-> contents "raw_data" = []).
Proof.
  split; [reflexivity|]. unfold stack_delete_ok, stack_delete_buckets. cbn.
  destruct (contents "raw_data"); cbn; split; congruence.
Qed.
