(* ===== verification/Template.v ===== *)
(** * The synthesized template and the unit tests

    [app.synth()] (src/app.py, line 10) turns the stack into a
    CloudFormation template; the unit tests
    (src/tests/unit/test_firstcdk_stack.py) assert on that template with
    [Template.has_resource_properties] and [Template.resource_count_is].
    [synth] gives the resources of the template with the properties the
    tests inspect; [jmatch] is the [objectLike] matching of the assertions
    library.  Both are written from the CDK documentation: they are library
    code, not code of the repository. *)

From S2P Require Import Prelude Stack Pipeline.

(** ** The synthesized template and the unit tests *)

(** A resource of the CloudFormation template: logical id, type and the
    properties the tests look at. *)
Record CfnResource := { cr_logical_id : string; cr_type : string; cr_props : list (string * JVal) }.

Definition cfn (id ty : string) (props : list (string * JVal)) : CfnResource :=
  {| cr_logical_id := id; cr_type := ty; cr_props := props |}.

(** The resources CDK synthesizes for a construct: the construct's own
    resource, and for the L2 constructs the helper resources they add
    (bucket policy and auto-delete custom resource, notification custom
    resource and queue policy, deployment custom resource).  The singleton
    provider functions and their roles (AWS::Lambda::Function,
    AWS::IAM::Role) that back the custom resources are left out: the tests
    look at SQS queues and SNS topics only. *)
Definition synth_construct (c : Construct) : list CfnResource :=
  match c with
  | CBucket b =>
      cfn (b_id b) "AWS::S3::Bucket" [] ::
      (if b_auto_delete_objects b
       then [cfn (b_id b +:+ "Policy") "AWS::S3::BucketPolicy" [];
             cfn (b_id b +:+ "AutoDeleteObjectsCustomResource") "Custom::S3AutoDeleteObjects" []]
       else [])
  | CNotification n =>
      [cfn (n_bucket n +:+ "Notifications") "Custom::S3BucketNotifications" [];
       cfn (n_queue n +:+ "Policy") "AWS::SQS::QueuePolicy" []]
  | CDeployment d => [cfn (d_id d +:+ "CustomResource") "Custom::CDKBucketDeployment" []]
  | CQueue q =>
      [cfn (q_id q) "AWS::SQS::Queue"
         (from_option (fun t => [("VisibilityTimeout", JNum t)]) [] (q_visibility_timeout q))]
  | CRole r => [cfn (r_id r) "AWS::IAM::Role" [("RoleName", JStr (r_role_name r))]]
  | CDatabase d => [cfn (db_id d) "AWS::Glue::Database" []]
  | CPermissions p => [cfn (lf_id p) "AWS::LakeFormation::Permissions" []]
  | CCrawler c => [cfn (c_id c) "AWS::Glue::Crawler" [("Name", JStr (c_name c))]]
  | CJob j => [cfn (j_id j) "AWS::Glue::Job" [("Name", JStr (j_name j))]]
  | CWorkflow w => [cfn (wf_id w) "AWS::Glue::Workflow" [("Name", JStr (wf_name w))]]
  | CTrigger t => [cfn (t_id t) "AWS::Glue::Trigger" [("Name", JStr (t_name t))]]
  | CRule r => [cfn (er_id r) "AWS::Events::Rule" [("Name", JStr (er_name r))]]
  end.

Definition synth (st : Stack) : list CfnResource := flat_map synth_construct st.

(** [app.synth()] (src/app.py, line 10): one template per stack. *)
Definition app_synth : list (string * list CfnResource) :=
  map (fun sn => (sn.1, synth sn.2)) app_stacks.

(** [Match.objectLike] on JSON: every expected field is present and
    matches; leaves are equal. *)
Fixpoint jmatch (expected actual : JVal) {struct expected} : bool :=
  match expected, actual with
  | JStr s, JStr s' => String.eqb s s'
  | JNum z, JNum z' => Z.eqb z z'
  | JObj fs, JObj o =>
      (fix go (fs : list (string * JVal)) : bool :=
         match fs with
         | [] => true
         | (k, e) :: rest =>
             match jlookup k o with
             | Some a => jmatch e a && go rest
             | None => false
             end
         end) fs
  | _, _ => false
  end.

(** [template.has_resource_properties(type, props)]. *)
Definition has_resource_properties (tpl : list CfnResource) (ty : string)
    (props : list (string * JVal)) : bool :=
  existsb (fun r => String.eqb (cr_type r) ty && jmatch (JObj props) (JObj (cr_props r))) tpl.

Definition resource_count (tpl : list CfnResource) (ty : string) : nat :=
  count_if (fun r => String.eqb (cr_type r) ty) tpl.

(** [template.resource_count_is(type, n)]. *)
Definition resource_count_is (tpl : list CfnResource) (ty : string) (n : nat) : bool :=
  Nat.eqb (resource_count tpl ty) n.

(** [test_sqs_queue_created] (src/tests/unit/test_firstcdk_stack.py, lines
    6-13), on the template of the stack. *)
Definition test_sqs_queue_created (st : Stack) : bool :=
  has_resource_properties (synth st) "AWS::SQS::Queue" [("VisibilityTimeout", JNum 300)].

(** [test_sns_topic_created] (lines 16-21). *)
Definition test_sns_topic_created (st : Stack) : bool :=
  resource_count_is (synth st) "AWS::SNS::Topic" 1.

(** C18: both unit tests fail on the stack: its one SQS queue is created
    without a visibility timeout (the test expects 300 s), and it has no SNS
    topic (the test expects one). *)
Theorem unit_tests_fail :
  test_sqs_queue_created FirstcdkStack = false /\
  resource_count (synth FirstcdkStack) "AWS::SQS::Queue" = 1 /\
  test_sns_topic_created FirstcdkStack = false /\
  resource_count (synth FirstcdkStack) "AWS::SNS::Topic" = 0.
Proof. vm_compute. repeat split. Qed.

