(* ===== verification/PyImport.v ===== *)
(** * Python's import statement over a table of modules

    The repository's three programs start with imports: app.py (lines
    3-5), the stack's module commenstack.py (lines 54-63), the handler's
    module lambda_handler.py (lines 4-5) and the test module (lines 1-3).
    [import a.b.c] imports each parent package first and raises
    [ModuleNotFoundError] for the first one that cannot be found;
    [from m import x] imports [m], then raises [ImportError] when [m] does
    not define [x].  The modules available are a table [Modules] (name
    and the names it defines).  The errors are those of the program that
    imports: the type class [ImportErrors] says how a program's error type
    carries the two import errors.  [run_imports] runs a module's import
    statements in order; [first_import_error] is the reference: the error
    of the first statement that fails. *)

From S2P Require Import Prelude.
From Stdlib Require Import Ascii.

(** How a program's errors carry Python's two import errors. *)
Class ImportErrors (E : Type) := {
  module_not_found : string -> E;
  import_error : string -> string -> E
}.

(** The importable modules, each with the names it defines. *)
Definition Modules := list (string * list string).

Definition module_defined (mods : Modules) (m : string) : bool :=
  existsb (fun e => String.eqb e.1 m) mods.

Definition module_exports (mods : Modules) (m name : string) : bool :=
  existsb (fun e => String.eqb e.1 m && name_in name e.2) mods.

(** The packages a dotted name goes through, outermost first:
    [dotted_parents "" "a.b.c" = ["a"; "a.b"; "a.b.c"]]. *)
Fixpoint dotted_parents (pre s : string) : list string :=
  match s with
  | EmptyString => [pre]
  | String c s' =>
      if Ascii.eqb c "."%char then pre :: dotted_parents (pre +:+ ".") s'
      else dotted_parents (pre +:+ String c EmptyString) s'
  end.

(** The first package of [m] that cannot be found. *)
Definition missing_parent (mods : Modules) (m : string) : option string :=
  List.find (fun p => negb (module_defined mods p)) (dotted_parents "" m).

(** An import statement: [import m] or [from m import x]. *)
Inductive ImportStmt := ImportMod (m : string) | FromImport (m x : string).

Section Imports.
Context {S E : Type} `{!ImportErrors E}.

(** [import m]. *)
Definition import_module (mods : Modules) (m : string) : exec S E unit := fun s =>
  match missing_parent mods m with
  | Some p => (s, Raised (module_not_found p))
  | None => (s, Returned tt)
  end.

(** The attribute lookup of [from m import name]. *)
Definition import_name (mods : Modules) (m name : string) : exec S E unit := fun s =>
  if module_exports mods m name then (s, Returned tt) else (s, Raised (import_error name m)).

(** [from m import name]. *)
Definition from_import (mods : Modules) (m name : string) : exec S E unit :=
  import_module mods m ;; import_name mods m name.

Definition run_import (mods : Modules) (st : ImportStmt) : exec S E unit :=
  match st with
  | ImportMod m => import_module mods m
  | FromImport m x => from_import mods m x
  end.

(** A module's import statements, in order. *)
Fixpoint run_imports (mods : Modules) (sts : list ImportStmt) : exec S E unit :=
  match sts with
  | [] => mret tt
  | st :: sts' => run_import mods st ;; run_imports mods sts'
  end.

(** The reference: the error of a statement, and of the first statement
    that fails. *)
Definition stmt_error (mods : Modules) (st : ImportStmt) : option E :=
  match st with
  | ImportMod m => module_not_found <$> missing_parent mods m
  | FromImport m x =>
      match missing_parent mods m with
      | Some p => Some (module_not_found p)
      | None => if module_exports mods m x then None else Some (import_error x m)
      end
  end.

Fixpoint first_import_error (mods : Modules) (sts : list ImportStmt) : option E :=
  match sts with
  | [] => None
  | st :: sts' => match stmt_error mods st with Some e => Some e | None => first_import_error mods sts' end
  end.

(** An error that an import raises. *)
Definition is_import_failure (e : E) : Prop :=
  (exists m, e = module_not_found m) \/ (exists x m, e = import_error x m).

(** ** Lemmas *)

Definition import_result (o : option E) : outcome E unit :=
  match o with Some e => Raised e | None => Returned tt end.

Lemma run_import_spec mods st s : run_import mods st s = (s, import_result (stmt_error mods st)).
Proof.
  destruct st as [m|m x]; cbn; unfold import_module; [by destruct (missing_parent mods m)|].
  unfold from_import, mbind, exec_bind, import_module, import_name.
  destruct (missing_parent mods m); [done|]. cbn. by destruct (module_exports mods m x).
Qed.

(** The statements run in order stop at the first that fails, and leave
    the state as it was. *)
Lemma run_imports_spec mods sts s :
  run_imports mods sts s = (s, import_result (first_import_error mods sts)).
Proof.
  induction sts as [|st sts IH]; [done|]. cbn [run_imports first_import_error].
  unfold mbind at 1, exec_bind at 1. rewrite run_import_spec.
  destruct (stmt_error mods st); [done|]. exact IH.
Qed.

(** Binding after an import: the continuation runs when the import
    succeeds, on the same state. *)
Lemma bind_import_result {A} (c : exec S E unit) (k : unit -> exec S E A) o s :
  c s = (s, import_result o) ->
  (x ← c; k x) s = match o with Some e => (s, Raised e) | None => k tt s end.
Proof. intros Hc. unfold mbind, exec_bind. rewrite Hc. by destruct o. Qed.

Lemma first_import_error_app mods l1 l2 :
  first_import_error mods (l1 ++ l2) =
    match first_import_error mods l1 with Some e => Some e | None => first_import_error mods l2 end.
Proof.
  induction l1 as [|st l1 IH]; [done|]. cbn. destruct (stmt_error mods st); [done | exact IH].
Qed.

Lemma stmt_error_failure mods st e : stmt_error mods st = Some e -> is_import_failure e.
Proof.
  destruct st as [m|m x]; cbn.
  - destruct (missing_parent mods m) as [p|]; intros [= <-]. left. by exists p.
  - destruct (missing_parent mods m) as [p|]; [intros [= <-]; left; by exists p|].
    destruct (module_exports mods m x); intros [= <-]. right. by exists x, m.
Qed.

Lemma first_import_error_failure mods sts e :
  first_import_error mods sts = Some e -> is_import_failure e.
Proof.
  induction sts as [|st sts IH]; [done|]. cbn.
  destruct (stmt_error mods st) eqn:Hs; [intros [= <-]; exact (stmt_error_failure _ _ _ Hs) | exact IH].
Qed.

Lemma run_imports_raises mods sts : exec_raises_only is_import_failure (run_imports mods sts).
Proof.
  intros s s' e. rewrite run_imports_spec.
  destruct (first_import_error mods sts) eqn:Hf; intros [= _ <-].
  exact (first_import_error_failure _ _ _ Hf).
Qed.

Lemma import_module_spec mods m s :
  import_module mods m s = (s, import_result (stmt_error mods (ImportMod m))).
Proof. exact (run_import_spec mods (ImportMod m) s). Qed.

Lemma import_name_raises mods m x : exec_raises_only is_import_failure (import_name mods m x).
Proof.
  intros s s' e. unfold import_name. destruct (module_exports _ _ _); intros [= _ <-].
  right. by exists x, m.
Qed.

Lemma import_module_raises mods m : exec_raises_only is_import_failure (import_module mods m).
Proof.
  intros s s' e. rewrite import_module_spec. cbn.
  destruct (missing_parent mods m) as [p|]; intros [= _ <-]. left. by exists p.
Qed.
End Imports.

#[export] Hint Resolve run_imports_raises import_name_raises import_module_raises : pipeline.
