(* ===== verification/Construction.v ===== *)
(** * Building the app: the stack's constructor, app.py and the test module

    [Stack] lists the resources of [FirstcdkStack]; this file gives the
    code that builds them its operational reading.
    - The constructor [FirstcdkStack.__init__] (src/lambda/commenstack.py,
      lines 73-233) is a sequence of construct creations in the scope
      [self]: each [_s3.Bucket(self, 'raw_data', ...)], [_glue.CfnJob(self,
      'glue_job', ...)] adds a child to the stack's node, which the
      constructs library refuses when the id is empty or already taken
      ([Node.addChild]); [raw_bucket.add_event_notification(...)] (line
      116) registers a notification on the bucket.  [FirstcdkStack_new] is
      the call [FirstcdkStack(app, id)]: the stack joins the app's children,
      [cdk.Stack] checks its name, then the body runs.
    - src/app.py ([app_py]) imports [aws_cdk] and
      [firstcdk.firstcdk_stack], creates the app, the stack, and
      synthesizes.  src/tests/unit/test_firstcdk_stack.py imports the same
      module at collection, then each test builds the stack and asserts on
      its template.
    - Python's import of a dotted name ([import_module]) imports each
      parent package first and raises [ModuleNotFoundError] for the first
      one missing; [from m import x] raises [ImportError] when [m] does not
      define [x].  The modules are a table [Modules]: [src_modules] is what
      the repository provides, with src/ on the path.
    The rules of the constructs library and of [cdk.Stack] (empty and
    duplicate ids, the stack-name pattern) are written from their
    documentation; what each line of the repository does with them is the
    code. *)

From S2P Require Import Prelude Stack Pipeline Template PyImport.
From Stdlib Require Import Ascii.

(** ** Errors and nodes *)

(** What the code can raise: Python's import errors, the errors of the
    constructs library and of [cdk.Stack], and a failed template
    assertion of [aws_cdk.assertions]. *)
Inductive PyError :=
  | ModuleNotFoundError (name : string)
  | ImportError (name module : string)
  | EmptyConstructId (scope : string)
  | DuplicateConstruct (scope child : string)
  | InvalidStackName (name : string)
  | AssertionFailure (resource_type : string).

#[export] Instance PyError_eq_dec : EqDecision PyError.
Proof. solve_decision. Defined.

(** A stack's node: its id and the constructs added to it, in order. *)
Record StackNode := { sn_id : string; sn_children : Stack }.

(** The app's node: its stacks, in order. *)
Record AppNode := { app_children : list StackNode }.

Definition empty_app : AppNode := {| app_children := [] |}.

Definition new_stack_node (id : string) : StackNode := {| sn_id := id; sn_children := [] |}.

(** The id a construct is created with ([None] for a notification, which
    is registered on its bucket, not created in the stack). *)
Definition construct_id (c : Construct) : option string :=
  match c with
  | CBucket b => Some (b_id b)
  | CNotification _ => None
  | CDeployment d => Some (d_id d)
  | CQueue q => Some (q_id q)
  | CRole r => Some (r_id r)
  | CDatabase d => Some (db_id d)
  | CPermissions p => Some (lf_id p)
  | CCrawler c => Some (c_id c)
  | CJob j => Some (j_id j)
  | CWorkflow w => Some (wf_id w)
  | CTrigger t => Some (t_id t)
  | CRule r => Some (er_id r)
  end.

Definition child_ids (st : Stack) : list string := omap construct_id st.

(** ** Operations on a stack's node *)

Definition attach (c : Construct) : exec StackNode PyError unit :=
  fun n => ({| sn_id := sn_id n; sn_children := sn_children n ++ [c] |}, Returned tt).

(** [new Construct(self, id)]: the constructs library's [Node] refuses an
    empty id below the root and an id its scope already has. *)
Definition add_child (c : Construct) : exec StackNode PyError unit := fun n =>
  match construct_id c with
  | None => attach c n
  | Some id =>
      if String.eqb id "" then (n, Raised (EmptyConstructId (sn_id n)))
      else if name_in id (child_ids (sn_children n)) then (n, Raised (DuplicateConstruct (sn_id n) id))
      else attach c n
  end.

(** [bucket.add_event_notification(event, s3n.SqsDestination(queue))]. *)
Definition add_event_notification (b : Bucket) (ev : EventType) (q : Queue) :
    exec StackNode PyError unit :=
  attach (CNotification {| n_bucket := b_id b; n_event := ev; n_queue := q_id q |}).

(** [cdk.Stack]'s check of the stack name (the id of a stack directly
    under the app): at most 128 characters, matching
    [^[A-Za-z][A-Za-z0-9-]*$]. *)
Definition valid_stack_name (s : string) : bool :=
  (String.length s <=? 128) &&
  match s with
  | EmptyString => false
  | String c r =>
      (is_upper c || is_lower c) &&
      str_forallb (fun c => is_upper c || is_lower c || is_digit c || Ascii.eqb c "-"%char) r
  end.

Definition validate_stack_name : exec StackNode PyError unit := fun n =>
  if valid_stack_name (sn_id n) then (n, Returned tt) else (n, Raised (InvalidStackName (sn_id n))).

(** ** The constructor *)

(** The body of [FirstcdkStack.__init__] (lines 76-233), one creation per
    statement of the code, in its order. *)
Definition FirstcdkStack_init : exec StackNode PyError unit :=
  add_child (CBucket raw_bucket) ;;
  add_child (CBucket output_bucket) ;;
  add_child (CDeployment deployment_scripts) ;;
  add_child (CQueue glue_queue) ;;
  add_event_notification raw_bucket OBJECT_CREATED glue_queue ;;
  add_child (CRole glue_role) ;;
  add_child (CDatabase glue_database) ;;
  add_child (CPermissions lakeformation_permission) ;;
  add_child (CCrawler glue_crawler) ;;
  add_child (CJob glue_job) ;;
  add_child (CWorkflow glue_workflow) ;;
  add_child (CTrigger glue_crawler_trigger) ;;
  add_child (CTrigger glue_job_trigger) ;;
  add_child (CRole rule_role) ;;
  add_child (CRule rule_s3_glue).

(** [FirstcdkStack(app, id)] (lines 73-74 and the body): the new stack
    joins the app's children (the app's own id is empty), [cdk.Stack]
    validates its name, then the body runs; what the body added stays in
    the app when it raises. *)
Definition FirstcdkStack_new (id : string) : exec AppNode PyError StackNode := fun a =>
  if String.eqb id "" then (a, Raised (EmptyConstructId ""))
  else if name_in id (map sn_id (app_children a)) then (a, Raised (DuplicateConstruct "" id))
  else
    let '(n, o) := (validate_stack_name ;; FirstcdkStack_init) (new_stack_node id) in
    ({| app_children := app_children a ++ [n] |},
     match o with Returned _ => Returned n | Raised e => Raised e end).

(** [app.synth()]: one template per stack of the app. *)
Definition synth_app : exec AppNode PyError (list (string * list CfnResource)) :=
  fun a => (a, Returned (map (fun n => (sn_id n, synth (sn_children n))) (app_children a))).

(** ** Imports *)

#[export] Instance PyError_import_errors : ImportErrors PyError := {
  module_not_found := ModuleNotFoundError;
  import_error := ImportError
}.

(** Lines 54-63 of commenstack.py: the imports of the stack's module. *)
Definition commenstack_imports : list ImportStmt :=
  [ImportMod "aws_cdk"; ImportMod "aws_cdk.aws_s3"; ImportMod "aws_cdk.aws_iam";
   ImportMod "aws_cdk.aws_sqs"; ImportMod "aws_cdk.aws_glue"; FromImport "constructs" "Construct";
   ImportMod "aws_cdk.aws_events"; ImportMod "aws_cdk.aws_s3_notifications";
   ImportMod "aws_cdk.aws_s3_deployment"; ImportMod "aws_cdk.aws_lakeformation"].

(** [from firstcdk.firstcdk_stack import FirstcdkStack], the stack's
    module being commenstack.py: Python finds the module, runs its body
    (its imports, then the class statement) and looks the name up. *)
Definition import_stack_class {S} (mods : Modules) : exec S PyError unit :=
  import_module mods "firstcdk.firstcdk_stack" ;;
  run_imports mods commenstack_imports ;;
  import_name mods "firstcdk.firstcdk_stack" "FirstcdkStack".

(** The same statements as a list, in the order Python runs them. *)
Definition stack_class_imports : list ImportStmt :=
  ImportMod "firstcdk.firstcdk_stack" :: commenstack_imports ++
  [FromImport "firstcdk.firstcdk_stack" "FirstcdkStack"].

(** The modules of the repository with src/ on the path (src/lambda and
    src/tests are namespace packages: they have no __init__.py), and the
    installed [aws_cdk] (aws-cdk-lib) with its dependency [constructs].
    No module [firstcdk] exists.  The entries under [lambda] record the
    files only: [lambda] is a Python keyword, so no import statement can
    name them (only [importlib] can), and none of the programs does. *)
Definition src_modules : Modules :=
  [("aws_cdk", ["App"; "Aws"; "Duration"; "RemovalPolicy"; "Stack"]);
   ("aws_cdk.assertions", ["Match"; "Template"]);
   ("aws_cdk.aws_s3", ["Bucket"; "EventType"; "LifecycleRule"; "StorageClass"; "Transition"]);
   ("aws_cdk.aws_iam", ["Effect"; "PolicyDocument"; "PolicyStatement"; "Role"; "ServicePrincipal"]);
   ("aws_cdk.aws_sqs", ["Queue"]);
   ("aws_cdk.aws_glue", ["CfnCrawler"; "CfnDatabase"; "CfnJob"; "CfnTrigger"; "CfnWorkflow"]);
   ("aws_cdk.aws_events", ["CfnRule"]);
   ("aws_cdk.aws_s3_notifications", ["SqsDestination"]);
   ("aws_cdk.aws_s3_deployment", ["BucketDeployment"; "Source"]);
   ("aws_cdk.aws_lakeformation", ["CfnPermissions"]);
   ("constructs", ["Construct"]);
   ("app", ["app"]);
   ("lambda", []);
   ("lambda.commenstack", ["FirstcdkStack"]);
   ("lambda.lambda_handler", ["lambda_handler"]);
   ("tests", []);
   ("tests.unit", []);
   ("tests.unit.test_firstcdk_stack", ["test_sqs_queue_created"; "test_sns_topic_created"])].

(** The layout [cdk init] generates, which the imports expect: the stack
    class in firstcdk/firstcdk_stack.py. *)
Definition cdk_init_modules : Modules :=
  ("firstcdk", []) :: ("firstcdk.firstcdk_stack", ["FirstcdkStack"]) :: src_modules.

(** ** src/app.py *)

(** Lines 3-10.  Line 7 creates a fresh app, whatever the state before. *)
Definition app_py (mods : Modules) : exec AppNode PyError (list (string * list CfnResource)) :=
  import_module mods "aws_cdk" ;;
  import_stack_class mods ;;
  modify (fun _ => empty_app) ;;
  FirstcdkStack_new "FirstcdkStack" ;;
  synth_app.

(** ** src/tests/unit/test_firstcdk_stack.py *)

(** Lines 1-3, run when the test module is collected. *)
Definition test_module_imports (mods : Modules) : exec AppNode PyError unit :=
  import_module mods "aws_cdk" ;;
  import_module mods "aws_cdk.assertions" ;;
  import_stack_class mods.

(** A [Template] assertion: it raises when the template does not match. *)
Definition assert_template (ok : bool) (ty : string) : exec AppNode PyError unit :=
  fun a => if ok then (a, Returned tt) else (a, Raised (AssertionFailure ty)).

(** [test_sqs_queue_created] (lines 6-13), after the module's imports. *)
Definition test_sqs_queue_created_py (mods : Modules) : exec AppNode PyError unit :=
  test_module_imports mods ;;
  modify (fun _ => empty_app) ;;
  stack ← FirstcdkStack_new "firstcdk";
  assert_template (test_sqs_queue_created (sn_children stack)) "AWS::SQS::Queue".

(** [test_sns_topic_created] (lines 16-21). *)
Definition test_sns_topic_created_py (mods : Modules) : exec AppNode PyError unit :=
  test_module_imports mods ;;
  modify (fun _ => empty_app) ;;
  stack ← FirstcdkStack_new "firstcdk";
  assert_template (test_sns_topic_created (sn_children stack)) "AWS::SNS::Topic".

(** Whether an import error ends the run: Python's import machinery. *)
Definition is_import_error (e : PyError) : bool :=
  match e with ModuleNotFoundError _ | ImportError _ _ => true | _ => false end.

(** ** Lemmas *)

(** The body computed: from an empty node it adds the fifteen constructs
    of [FirstcdkStack] and returns. *)
Lemma FirstcdkStack_init_run (id : string) :
  FirstcdkStack_init (new_stack_node id) =
    ({| sn_id := id; sn_children := FirstcdkStack |}, Returned tt).
Proof. reflexivity. Qed.

Lemma valid_stack_name_nonempty (id : string) : valid_stack_name id = true -> String.eqb id "" = false.
Proof. intros H. destruct id; [discriminate H | reflexivity]. Qed.

Lemma validate_stack_name_ok (n : StackNode) :
  valid_stack_name (sn_id n) = true -> validate_stack_name n = (n, Returned tt).
Proof. intros Hv. unfold validate_stack_name. by rewrite Hv. Qed.

(** [FirstcdkStack(app, id)] computed, for a valid name new to the app. *)
Lemma FirstcdkStack_new_fresh (a : AppNode) (id : string) :
  valid_stack_name id = true -> name_in id (map sn_id (app_children a)) = false ->
  FirstcdkStack_new id a =
    ({| app_children := app_children a ++ [{| sn_id := id; sn_children := FirstcdkStack |}] |},
     Returned {| sn_id := id; sn_children := FirstcdkStack |}).
Proof.
  intros Hv Hn. unfold FirstcdkStack_new. rewrite valid_stack_name_nonempty, Hn by done.
  rewrite (exec_bind_returned _ _ _ _ _ (validate_stack_name_ok (new_stack_node id) Hv)).
  by rewrite FirstcdkStack_init_run.
Qed.

Lemma import_stack_class_spec {S} mods (s : S) :
  import_stack_class mods s = (s, import_result (first_import_error mods stack_class_imports)).
Proof.
  unfold import_stack_class, stack_class_imports.
  rewrite (bind_import_result _ _ _ _ (import_module_spec mods _ s)).
  cbn [first_import_error stmt_error]. destruct (missing_parent mods "firstcdk.firstcdk_stack") eqn:Hm;
    [done|]. cbn [fmap option_fmap option_map].
  rewrite (bind_import_result _ _ _ _ (run_imports_spec mods _ s)), first_import_error_app.
  destruct (first_import_error mods commenstack_imports); [done|].
  cbn [first_import_error stmt_error]. rewrite Hm.
  unfold import_name. by destruct (module_exports mods _ _).
Qed.

(** The imports app.py runs: line 3, then line 5 with the stack's module
    body. *)
Definition app_py_imports : list ImportStmt := ImportMod "aws_cdk" :: stack_class_imports.

Lemma app_py_spec mods (a : AppNode) :
  app_py mods a =
    match first_import_error mods app_py_imports with
    | Some e => (a, Raised e)
    | None => (FirstcdkStack_new "FirstcdkStack" ;; synth_app) empty_app
    end.
Proof.
  unfold app_py, app_py_imports. rewrite (bind_import_result _ _ _ _ (import_module_spec mods _ a)).
  cbn [first_import_error]. destruct (stmt_error mods (ImportMod "aws_cdk")); [done|].
  rewrite (bind_import_result _ _ _ _ (import_stack_class_spec mods a)).
  by destruct (first_import_error mods stack_class_imports).
Qed.

Lemma is_import_error_failure (e : PyError) : is_import_failure e -> is_import_error e = true.
Proof. by intros [[m ->] | (x & m & ->)]. Qed.

Lemma missing_parent_firstcdk mods :
  module_defined mods "firstcdk" = false ->
  missing_parent mods "firstcdk.firstcdk_stack" = Some "firstcdk".
Proof.
  intros H. unfold missing_parent.
  change (dotted_parents "" "firstcdk.firstcdk_stack") with ["firstcdk"; "firstcdk.firstcdk_stack"].
  cbn [List.find]. by rewrite H.
Qed.

Lemma missing_parent_aws_cdk mods :
  module_defined mods "aws_cdk" = true -> missing_parent mods "aws_cdk" = None.
Proof.
  intros H. unfold missing_parent. change (dotted_parents "" "aws_cdk") with ["aws_cdk"].
  cbn [List.find]. by rewrite H.
Qed.

(** The stack the tests build fails both assertions. *)
Lemma test_assertions_false :
  test_sqs_queue_created FirstcdkStack = false /\ test_sns_topic_created FirstcdkStack = false.
Proof. split; vm_compute; reflexivity. Qed.

Lemma import_stack_class_raises {S} mods : exec_raises_only is_import_failure (import_stack_class (S:=S) mods).
Proof. unfold import_stack_class. auto 10 with pipeline. Qed.

Lemma test_module_imports_raises mods :
  exec_raises_only (fun e => is_import_error e = true) (test_module_imports mods).
Proof.
  assert (H : exec_raises_only is_import_failure (test_module_imports mods))
    by (unfold test_module_imports; auto 10 using import_stack_class_raises with pipeline).
  intros a a' e Hi. exact (is_import_error_failure _ (H _ _ _ Hi)).
Qed.

(** A test: its imports, a fresh app, the stack ["firstcdk"], an
    assertion [check] on its constructs that fails. *)
Lemma test_py_raises mods (a : AppNode) (check : Stack -> bool) (ty : string) :
  check FirstcdkStack = false ->
  exists a' e,
    (test_module_imports mods ;; modify (fun _ => empty_app) ;;
     stack ← FirstcdkStack_new "firstcdk"; assert_template (check (sn_children stack)) ty) a
      = (a', Raised e) /\ (is_import_error e = true \/ e = AssertionFailure ty).
Proof.
  intros Hck. destruct (test_module_imports mods a) as [a1 [[]|e]] eqn:Hi.
  - rewrite (exec_bind_returned _ _ _ _ _ Hi), exec_bind_modify.
    rewrite (exec_bind_returned _ _ _ _ _ (FirstcdkStack_new_fresh empty_app "firstcdk" eq_refl eq_refl)).
    unfold assert_template; cbn [sn_children]. rewrite Hck. eauto.
  - rewrite (exec_bind_raised _ _ _ _ _ Hi).
    pose proof (test_module_imports_raises mods _ _ _ Hi). eauto.
Qed.

(** ** The constructor and the app *)

(** C19: [FirstcdkStack(app, id)], for a valid stack name the app does
    not have yet, never raises: it adds one stack to the app, whose
    constructs are exactly those of [FirstcdkStack], in the code's order,
    and returns it. *)
Theorem FirstcdkStack_new_builds (a : AppNode) (id : string) :
  valid_stack_name id = true -> name_in id (map sn_id (app_children a)) = false ->
  FirstcdkStack_new id a =
    ({| app_children := app_children a ++ [{| sn_id := id; sn_children := FirstcdkStack |}] |},
     Returned {| sn_id := id; sn_children := FirstcdkStack |}) /\
  child_ids FirstcdkStack =
    ["raw_data"; "processed_cdk_bucket"; "deployment_scripts"; "glue_queue"; "glue_role";
     "glue-database"; "lakeformation_permission"; "glue_crawler"; "glue_job"; "glue_workflow";
     "glue_crawler_trigger"; "glue_job_trigger"; "rule_role"; "rule_s3_glue"].
Proof. intros Hv Hn. split; [exact (FirstcdkStack_new_fresh a id Hv Hn) | reflexivity]. Qed.

(** C20: app.py imports [firstcdk.firstcdk_stack], a module the
    repository does not have: with any module table without a
    [firstcdk] package, app.py raises [ModuleNotFoundError: No module
    named 'firstcdk'] at line 5, before any app or stack exists. *)
Theorem app_py_module_not_found (mods : Modules) (a : AppNode) :
  module_defined mods "aws_cdk" = true -> module_defined mods "firstcdk" = false ->
  app_py mods a = (a, Raised (ModuleNotFoundError "firstcdk")).
Proof.
  intros Hcdk Hmiss. rewrite app_py_spec. unfold app_py_imports, stack_class_imports.
  cbn [first_import_error stmt_error]. by rewrite missing_parent_aws_cdk, missing_parent_firstcdk.
Qed.

(** C21: with modules in which every import of app.py succeeds (line 3,
    line 5 and, inside the stack's module, lines 54-63), as in the layout
    [cdk init] generates, app.py creates one app holding the one stack
    ["FirstcdkStack"] with the constructs of [FirstcdkStack], and
    [app.synth()] returns its template. *)
Theorem app_py_synthesizes (mods : Modules) (a : AppNode) :
  first_import_error mods app_py_imports = None ->
  app_py mods a =
    ({| app_children := [{| sn_id := "FirstcdkStack"; sn_children := FirstcdkStack |}] |},
     Returned app_synth).
Proof.
  intros Hok. rewrite app_py_spec, Hok.
  by rewrite (exec_bind_returned _ _ _ _ _ (FirstcdkStack_new_fresh empty_app "FirstcdkStack" eq_refl eq_refl)).
Qed.

(** C22: neither unit test can pass, whatever modules are installed: each
    raises, either an import error while its module is collected (with
    the repository's layout, [ModuleNotFoundError] for [firstcdk]) or the
    failure of its template assertion. *)
Theorem unit_tests_never_pass (mods : Modules) (a : AppNode) :
  (exists a' e, test_sqs_queue_created_py mods a = (a', Raised e) /\
     (is_import_error e = true \/ e = AssertionFailure "AWS::SQS::Queue")) /\
  (exists a' e, test_sns_topic_created_py mods a = (a', Raised e) /\
     (is_import_error e = true \/ e = AssertionFailure "AWS::SNS::Topic")).
Proof.
  destruct test_assertions_false as [Hsqs Hsns].
  split; [exact (test_py_raises mods a _ _ Hsqs) | exact (test_py_raises mods a _ _ Hsns)].
Qed.

(** ** Witnesses *)

Lemma FirstcdkStack_new_builds_witness :
  FirstcdkStack_new "FirstcdkStack" empty_app =
    ({| app_children := [{| sn_id := "FirstcdkStack"; sn_children := FirstcdkStack |}] |},
     Returned {| sn_id := "FirstcdkStack"; sn_children := FirstcdkStack |}).
Proof. exact (proj1 (FirstcdkStack_new_builds empty_app "FirstcdkStack" eq_refl eq_refl)). Defined.

Lemma app_py_module_not_found_witness :
  app_py src_modules empty_app = (empty_app, Raised (ModuleNotFoundError "firstcdk")).
Proof. apply app_py_module_not_found; vm_compute; reflexivity. Defined.

Lemma app_py_synthesizes_witness :
  app_py cdk_init_modules empty_app =
    ({| app_children := [{| sn_id := "FirstcdkStack"; sn_children := FirstcdkStack |}] |},
     Returned app_synth).
Proof. apply app_py_synthesizes; vm_compute; reflexivity. Defined.
