(* ===== verification/Runtime.v ===== *)
(** * The Lambda runtime around the handler

    The platform loads src/lambda/lambda_handler.py once per execution
    environment (the init phase: the module's imports, lines 4-5, then the
    [def] of line 7) and then invokes [lambda_handler(event, context)] once
    per event, one after the other, in the same environment: the Glue
    service and the stdout log carry over from one invocation to the next.
    An init that fails fails every invocation with the init error
    (Runtime.ImportModuleError), before the handler runs.  [lambda_service]
    is that loop; [invoke] turns the handler's outcome into what the
    platform reports: the response, or the function error of an uncaught
    exception.  The runtime is platform behaviour written from the Lambda
    documentation; the imports are the code's.

    Over the reference service the loop reaches a steady state after its
    first event ([svc_handled]): the handler only appends to the log and
    the calls ([lambda_handler_frame]), and once the service is a fixed
    point of one invocation, every later event repeats it. *)

From S2P Require Import Prelude GlueApi Json Handler PyImport Invocations.

(** The init errors of the Python runtime. *)
Inductive InitError :=
  | RtModuleNotFound (name : string)
  | RtImportError (name module : string).

#[export] Instance InitError_import_errors : ImportErrors InitError := {
  module_not_found := RtModuleNotFound;
  import_error := RtImportError
}.

(** Lines 4-5 of lambda_handler.py. *)
Definition handler_module_imports : list ImportStmt := [ImportMod "json"; ImportMod "boto3"].

(** The modules of Lambda's Python runtime that matter here: the standard
    library's [json] and the AWS SDK [boto3]. *)
Definition lambda_python_modules : Modules :=
  [("json", ["dumps"; "loads"]); ("boto3", ["client"]); ("botocore", ["exceptions"])].

(** What the platform reports for one event. *)
Inductive InvokeResult :=
  | Ok (r : LambdaResponse)
  | FunctionError (e : GlueError)
  | InitFailure (e : InitError).

Section Runtime.
Context {G : Type} `{!GlueClient G} {Ev : Type}.

(** One invocation of the loaded handler; the context object is [tt]. *)
Definition invoke (ev : Ev) (w : World G) : World G * InvokeResult :=
  match lambda_handler ev tt w with
  | (w', Returned r) => (w', Ok r)
  | (w', Raised e) => (w', FunctionError e)
  end.

(** The events handled one after the other in one environment. *)
Fixpoint invoke_all (evs : list Ev) (w : World G) : World G * list InvokeResult :=
  match evs with
  | [] => (w, [])
  | ev :: evs' =>
      let '(w1, r) := invoke ev w in
      let '(w2, rs) := invoke_all evs' w1 in
      (w2, r :: rs)
  end.

(** Init, then the events. *)
Definition lambda_service (mods : Modules) (evs : list Ev) (w : World G) :
    World G * list InvokeResult :=
  match run_imports (S:=unit) mods handler_module_imports tt with
  | (_, Raised e) => (w, map (fun _ => InitFailure e) evs)
  | (_, Returned _) => invoke_all evs w
  end.
End Runtime.

(** The lines and calls of one invocation that finds the crawler running. *)
Definition running_lines : list string :=
  ["lambda1 invoked - cdk"; "Glue crawler test-lambda-crawler is already running.";
   "lambda1 finished - cdk"].

Definition ready_lines : list string :=
  ["lambda1 invoked - cdk"; "Started Glue crawler: test-lambda-crawler"; "lambda1 finished - cdk"].

(** ** Lemmas *)

Lemma lambda_service_init_ok {G} `{!GlueClient G} {Ev} mods (evs : list Ev) (w : World G) :
  first_import_error mods handler_module_imports = None ->
  lambda_service mods evs w = invoke_all evs w.
Proof. intros Hok. unfold lambda_service. by rewrite run_imports_spec, Hok. Qed.

(** Invocations while the crawler runs: each queries, prints that it is
    running and returns the success response; the service is untouched. *)
Lemma invoke_all_running {Ev} (evs : list Ev) (w : World GlueSvc) :
  gs_fault (w_glue w) = None -> gs_crawlers (w_glue w) !! crawler_name = Some RUNNING ->
  invoke_all evs w =
    ({| w_glue := w_glue w;
        w_stdout := w_stdout w ++ flat_map (fun _ => running_lines) evs;
        w_calls := w_calls w ++ flat_map (fun _ => [GetCrawlerCall crawler_name]) evs |},
     map (fun _ => Ok handler_response) evs).
Proof.
  intros Hf Hl. revert w Hf Hl. induction evs as [|ev evs IH]; intros w Hf Hl.
  - cbn. destruct w. by rewrite !app_nil_r.
  - cbn [invoke_all]. unfold invoke.
    rewrite (lambda_handler_running ev tt w _ (svc_get_crawler_state _ _ Hf Hl) eq_refl).
    rewrite IH by done. cbn. by rewrite <- !app_assoc.
Qed.

Lemma handler_module_imports_ok : first_import_error lambda_python_modules handler_module_imports = None.
Proof. reflexivity. Qed.

(** An invocation in a fresh world holding service [g]. *)
Definition invoke_fresh {G} `{!GlueClient G} (g : G) : World G * InvokeResult :=
  invoke tt (glue_world g).

(** An invocation appends what it would print and send in a fresh world
    holding the same service. *)
Lemma invoke_frame {G} `{!GlueClient G} {Ev} (ev : Ev) (w : World G) :
  invoke ev w =
    (after w (w_glue (invoke_fresh (w_glue w)).1) (w_stdout (invoke_fresh (w_glue w)).1)
       (w_calls (invoke_fresh (w_glue w)).1), (invoke_fresh (w_glue w)).2).
Proof.
  unfold invoke_fresh, invoke. rewrite lambda_handler_frame.
  by destruct (lambda_handler tt tt (glue_world (w_glue w))) as [w0 [r|e]].
Qed.

(** Once an invocation leaves the service as it found it, every later
    invocation repeats it. *)
Lemma invoke_all_fixed {G} `{!GlueClient G} {Ev} (evs : list Ev) (w : World G) :
  w_glue (invoke_fresh (w_glue w)).1 = w_glue w ->
  invoke_all evs w =
    (after w (w_glue w) (concat (replicate (length evs) (w_stdout (invoke_fresh (w_glue w)).1)))
       (concat (replicate (length evs) (w_calls (invoke_fresh (w_glue w)).1))),
     replicate (length evs) (invoke_fresh (w_glue w)).2).
Proof.
  intros Hfix. revert w Hfix. induction evs as [|ev evs IH]; intros w Hfix.
  - destruct w. unfold after; cbn. by rewrite !app_nil_r.
  - cbn [invoke_all]. rewrite invoke_frame, Hfix. cbv beta iota zeta.
    rewrite IH by (unfold after at 1 2; cbn [w_glue]; exact Hfix).
    unfold after; cbn. by rewrite !app_assoc.
Qed.

(** What one invocation does to the reference service: it starts a READY
    crawler and leaves every other service as it is. *)
Definition svc_handled (svc : GlueSvc) : GlueSvc :=
  match gs_fault svc, gs_crawlers svc !! crawler_name with
  | None, Some READY => svc_set_state svc crawler_name RUNNING
  | _, _ => svc
  end.

Lemma invoke_fresh_svc (svc : GlueSvc) : w_glue (invoke_fresh svc).1 = svc_handled svc.
Proof.
  unfold invoke_fresh, invoke, svc_handled. destruct (gs_fault svc) as [c|] eqn:Hf.
  { assert (Hg : get_crawler svc crawler_name = inl (ClientError c))
      by (cbn; unfold svc_get_crawler; by rewrite Hf).
    by rewrite (lambda_handler_get_error tt tt (glue_world svc) _ Hg). }
  destruct (gs_crawlers svc !! crawler_name) as [st|] eqn:Hl.
  - pose proof (svc_get_crawler_state _ st Hf Hl) as Hg.
    pose proof (svc_start_crawler_state _ st Hf Hl) as Hst.
    destruct st; cbn [decide decide_rel CrawlerState_eq_dec] in Hst.
    + by rewrite (lambda_handler_start tt tt (glue_world svc) _ _ _ Hg ltac:(cbn; str_neq) Hst).
    + by rewrite (lambda_handler_running tt tt (glue_world svc) _ Hg eq_refl).
    + by rewrite (lambda_handler_start tt tt (glue_world svc) _ _ _ Hg ltac:(cbn; str_neq) Hst).
  - assert (Hg : get_crawler svc crawler_name = inl EntityNotFoundException)
      by (cbn; unfold svc_get_crawler; by rewrite Hf, Hl).
    by rewrite (lambda_handler_get_error tt tt (glue_world svc) _ Hg).
Qed.

Lemma svc_handled_idem (svc : GlueSvc) : svc_handled (svc_handled svc) = svc_handled svc.
Proof.
  unfold svc_handled at 2 3. destruct (gs_fault svc) as [c|] eqn:Hf; [by unfold svc_handled; rewrite Hf|].
  destruct (gs_crawlers svc !! crawler_name) as [[| |]|] eqn:Hl;
    unfold svc_handled; cbn [gs_fault gs_crawlers svc_set_state]; rewrite ?Hf, ?Hl; [|done..].
  by rewrite lookup_insert_eq.
Qed.

(** ** Events handled one after the other *)

(** C25: in one execution environment of the Lambda runtime, events
    handled one after the other on a READY crawler: the init succeeds, the
    first invocation starts the crawler, every later one finds it running
    and sends only its query; every invocation returns the success
    response, and exactly one start command is sent. *)
Theorem sequential_events_start_once {Ev} (ev : Ev) (evs : list Ev)
    (crawlers : gmap string CrawlerState) :
  crawlers !! crawler_name = Some READY ->
  lambda_service lambda_python_modules (ev :: evs) (svc_world crawlers None) =
    ({| w_glue := svc_set_state {| gs_crawlers := crawlers; gs_fault := None |} crawler_name RUNNING;
        w_stdout := ready_lines ++ flat_map (fun _ => running_lines) evs;
        w_calls := [GetCrawlerCall crawler_name; StartCrawlerCall crawler_name] ++
                   flat_map (fun _ => [GetCrawlerCall crawler_name]) evs |},
     Ok handler_response :: map (fun _ => Ok handler_response) evs).
Proof.
  intros Hl. rewrite (lambda_service_init_ok _ _ _ handler_module_imports_ok).
  set (svc := {| gs_crawlers := crawlers; gs_fault := None |}).
  assert (Hst : start_crawler svc crawler_name = (svc_set_state svc crawler_name RUNNING, inr tt))
    by (by rewrite (svc_start_crawler_state svc READY)).
  cbn [invoke_all]. unfold invoke.
  rewrite (lambda_handler_start ev tt (svc_world crawlers None) _ _ _
             (svc_get_crawler_state svc READY eq_refl Hl) ltac:(cbn; str_neq) Hst).
  cbv beta iota zeta.
  rewrite invoke_all_running by (cbn; by rewrite ?lookup_insert_eq).
  reflexivity.
Qed.

(** ** After the first event, a steady state *)

(** C27: in one execution environment, over the reference service and
    whatever its state (crawler READY, RUNNING, STOPPING or absent, or a
    faulty service), the first invocation leaves the service as
    [svc_handled] says (a READY crawler is started, nothing else changes),
    and from then on the service no longer changes: every later event
    prints the same lines, sends the same calls and gets the same result,
    those of one invocation on the service the first one left.  A second
    invocation is redundant: the handler is idempotent on the service. *)
Theorem runtime_steady_after_first_event {Ev} (ev : Ev) (evs : list Ev) (w : World GlueSvc) :
  w_glue (invoke ev w).1 = svc_handled (w_glue w) /\
  w_glue (invoke_fresh (svc_handled (w_glue w))).1 = svc_handled (w_glue w) /\
  invoke_all (ev :: evs) w =
    (after (invoke ev w).1 (svc_handled (w_glue w))
       (concat (replicate (length evs) (w_stdout (invoke_fresh (svc_handled (w_glue w))).1)))
       (concat (replicate (length evs) (w_calls (invoke_fresh (svc_handled (w_glue w))).1))),
     (invoke ev w).2 :: replicate (length evs) (invoke_fresh (svc_handled (w_glue w))).2).
Proof.
  assert (H1 : w_glue (invoke ev w).1 = svc_handled (w_glue w))
    by (rewrite invoke_frame; apply invoke_fresh_svc).
  assert (H2 : w_glue (invoke_fresh (svc_handled (w_glue w))).1 = svc_handled (w_glue w))
    by (rewrite invoke_fresh_svc; apply svc_handled_idem).
  split; [done|]. split; [done|]. cbn [invoke_all].
  rewrite <- H1 in H2 |- *. destruct (invoke ev w) as [w1 r1]. cbn [fst snd] in *.
  by rewrite invoke_all_fixed.
Qed.

(** ** Witnesses *)

Lemma sequential_events_start_once_witness :
  lambda_service lambda_python_modules [tt; tt; tt] (svc_world {[crawler_name := READY]} None) =
    ({| w_glue := svc_set_state {| gs_crawlers := {[crawler_name := READY]}; gs_fault := None |}
                   crawler_name RUNNING;
        w_stdout := ready_lines ++ flat_map (fun _ => running_lines) [tt; tt];
        w_calls := [GetCrawlerCall crawler_name; StartCrawlerCall crawler_name] ++
                   flat_map (fun _ => [GetCrawlerCall crawler_name]) [tt; tt] |},
     Ok handler_response :: map (fun _ => Ok handler_response) [tt; tt]).
Proof. apply sequential_events_start_once. reflexivity. Defined.
